(** * Reporter: buffering locust samples and flushing them to Postgres

    A shallow embedding of [locust_extensions/reporter.py].  The reporter
    object, the world it acts on (clock, cursor, log, event hooks, the heap
    of Python list objects, the background greenlet) and the cooperative
    schedule of gevent are explicit; every method of [Reporter] is a
    function on that state. *)

From Stdlib Require Import ZArith Floats DecimalString.
From stdpp Require Import gmap strings list.

Local Open Scope string_scope.
Local Open Scope list_scope.

(** ** Python values *)

(** An object received as [exception]: the code takes its truth value
    ([if exception:]) and its [repr], nothing else. *)
Record pyobj := PyObj { py_bool : bool; py_repr : string }.

(** The literal [None] that [request_success] passes as exception. *)
Definition PyNone : pyobj := PyObj false "None".

(** A [datetime] is used through [timestamp()], which is a binary64
    float, through [isoformat()] and as an SQL parameter. *)
Record datetime := Datetime { timestamp : float }.

(** The text [d.isoformat()], kept as the datetime it renders. *)
Inductive isotext := isoformat (d : datetime).

(** [num_clients] is the int [1] or an element of [sys.argv]. *)
Inductive pyarg := PyInt (z : Z) | PyStr (s : string).

(** What ends a computation before its last statement: an exception, or,
    for [Hangs], a call that never returns. *)
Inductive exn :=
| KeyError (key : string)
| OperationalError
| AssertionError
| ParserError (text : string)
| IndexError
| Psycopg2Error (repr : string)
| OverflowError
| ValueError
| Hangs.

(** The dict built by [_log_request]; its keys are fixed. *)
Record Sample := {
  s_time : isotext;
  s_run_id : datetime;
  s_greenlet_id : Z;
  s_loadgen : string;
  s_name : string;
  s_request_type : string;
  s_response_time : float;
  s_success : Z;
  s_testplan : string;
  s_response_length : option Z;
  s_exception : option string
}.

(** ** The database driver *)

Inductive sqltime := AsText (t : isotext) | AsDatetime (d : datetime).

(** The four statements the reporter sends, with their parameters. *)
Inductive stmt :=
| INSERT_testrun (id : datetime) (testplan profile_name : string)
                 (num_clients : pyarg) (rps description : string)
| INSERT_events (time : sqltime) (text : string)
| UPDATE_testrun (end_time id : datetime)
| INSERT_request (samples : list Sample).

(** What became of a call to [execute] / [executemany]: the server ran it,
    the server failed it (a [psycopg2.Error] with this repr), or the driver
    refused it before it reached the server, because the cursor is closed
    ([psycopg2.InterfaceError]) or because another query is in flight on the
    connection ([psycopg2.ProgrammingError]); both are [psycopg2.Error]. *)
Inductive outcome := Done | Failed (repr : string) | Refused.

Inductive handle := Absent | Open | Closed.

Inductive logrec := LogError (msg : string) | LogInfo (msg : string).

(** ** Greenlets, hooks and the heap *)

Definition loc := nat.

(** Where the background greenlet running [_run] is suspended: in
    [gevent.sleep] (or freshly spawned), about to evaluate the loop head;
    inside [executemany] on the list object [buf]; or finished. *)
Inductive greenlet := Sleeping | Writing (buf : loc) | Dead.

Inductive bus := events_request_success | events_request_failure
               | events_quitting | atexit.
Inductive method := m_request_success | m_request_failure | m_quitting | m_exit.

Global Instance bus_eq_dec : EqDecision bus.
Proof. solve_decision. Defined.
Global Instance method_eq_dec : EqDecision method.
Proof. solve_decision. Defined.
Global Instance handle_eq_dec : EqDecision handle.
Proof. solve_decision. Defined.
Global Instance greenlet_eq_dec : EqDecision greenlet.
Proof. solve_decision. Defined.

(** Control points of one execution, in the order they are passed.  The
    history is not an attribute of the program: it records when a sample
    was appended, what the loop head of [_run] saw, and when [quitting],
    [exit] and the return of [_run] happened, so that properties about the
    order of these moments can be stated. *)
Inductive event :=
| E_append (s : Sample)            (* self._samples.append(sample) *)
| E_drain (batch : list Sample)    (* loop head, buffer non-empty: swapped out *)
| E_idle                           (* loop head, buffer empty *)
| E_return                         (* _run left its loop *)
| E_quitting                       (* quitting() entered *)
| E_exit.                          (* exit() entered *)

(** ** What the process is started with, and what it cannot control *)
Record Config := {
  argv : list string;                  (* sys.argv *)
  environ : gmap string string;        (* os.environ *)
  GRAFANA_URL : string;                (* os.environ["LOCUST_GRAFANA_URL"] at import *)
  gethostname : string;                (* socket.gethostname() *)
  now : nat -> datetime;               (* successive datetime.now(timezone.utc) *)
  parse : string -> option datetime;   (* dateutil.parser.parse; None: it raises *)
  connect_ok : bool;                   (* whether psycopg2.connect succeeds *)
  pg_fault : nat -> option string      (* the server fails the n-th call with this repr *)
}.

(** ** Mutable state *)
Record World := {
  ticks : nat;                         (* clock readings taken so far *)
  conn : handle;
  cur : handle;
  calls : list (stmt * outcome);       (* every execute / executemany, oldest first *)
  log : list logrec;                   (* oldest first *)
  heap : gmap loc (list Sample);       (* the list objects *)
  background : option greenlet;        (* the greenlet spawned on _run *)
  hooks : list (bus * method);         (* listeners and exit functions *)
  history : list event                 (* oldest first *)
}.

Definition initial_world : World :=
  {| ticks := 0; conn := Absent; cur := Absent; calls := []; log := [];
     heap := ∅; background := None; hooks := []; history := [] |}.

(** The attributes of [self] ([_conn], [_cur] and [_background] are the
    connection, cursor and greenlet of the world). *)
Record Reporter := {
  _testplan : string;
  _hostname : string;
  _samples : loc;
  _finished : bool;
  _run_id : datetime;
  _profile_name : string;
  _rps : string;
  _description : string
}.

Definition set_ticks (n : nat) (w : World) : World :=
  {| ticks := n; conn := conn w; cur := cur w; calls := calls w; log := log w;
     heap := heap w; background := background w; hooks := hooks w;
     history := history w |}.
Definition set_conn (h : handle) (w : World) : World :=
  {| ticks := ticks w; conn := h; cur := cur w; calls := calls w; log := log w;
     heap := heap w; background := background w; hooks := hooks w;
     history := history w |}.
Definition set_cur (h : handle) (w : World) : World :=
  {| ticks := ticks w; conn := conn w; cur := h; calls := calls w; log := log w;
     heap := heap w; background := background w; hooks := hooks w;
     history := history w |}.
Definition set_calls (c : list (stmt * outcome)) (w : World) : World :=
  {| ticks := ticks w; conn := conn w; cur := cur w; calls := c; log := log w;
     heap := heap w; background := background w; hooks := hooks w;
     history := history w |}.
Definition set_log (l : list logrec) (w : World) : World :=
  {| ticks := ticks w; conn := conn w; cur := cur w; calls := calls w; log := l;
     heap := heap w; background := background w; hooks := hooks w;
     history := history w |}.
Definition set_heap (h : gmap loc (list Sample)) (w : World) : World :=
  {| ticks := ticks w; conn := conn w; cur := cur w; calls := calls w; log := log w;
     heap := h; background := background w; hooks := hooks w;
     history := history w |}.
Definition set_background (g : option greenlet) (w : World) : World :=
  {| ticks := ticks w; conn := conn w; cur := cur w; calls := calls w; log := log w;
     heap := heap w; background := g; hooks := hooks w;
     history := history w |}.
Definition set_hooks (h : list (bus * method)) (w : World) : World :=
  {| ticks := ticks w; conn := conn w; cur := cur w; calls := calls w; log := log w;
     heap := heap w; background := background w; hooks := h;
     history := history w |}.

Definition set_history (e : list event) (w : World) : World :=
  {| ticks := ticks w; conn := conn w; cur := cur w; calls := calls w; log := log w;
     heap := heap w; background := background w; hooks := hooks w;
     history := e |}.

Definition set_samples (l : loc) (r : Reporter) : Reporter :=
  {| _testplan := _testplan r; _hostname := _hostname r; _samples := l;
     _finished := _finished r; _run_id := _run_id r;
     _profile_name := _profile_name r; _rps := _rps r;
     _description := _description r |}.
Definition set_finished (b : bool) (r : Reporter) : Reporter :=
  {| _testplan := _testplan r; _hostname := _hostname r; _samples := _samples r;
     _finished := b; _run_id := _run_id r;
     _profile_name := _profile_name r; _rps := _rps r;
     _description := _description r |}.

(** ** Computations that may raise *)

Definition M (A : Type) : Type := World -> World * (exn + A).

Global Instance M_ret : MRet M := fun A a w => (w, inr a).
Global Instance M_bind : MBind M := fun A B f m w =>
  match m w with
  | (w', inr a) => f a w'
  | (w', inl e) => (w', inl e)
  end.

Definition raise {A} (e : exn) : M A := fun w => (w, inl e).
Definition modify (f : World -> World) : M unit := fun w => (f w, inr tt).
Definition get {A} (f : World -> A) : M A := fun w => (w, inr (f w)).

(** [try: body except psycopg2.Error as error: handler(repr(error))] *)
Definition try_except_psycopg2 (body : M unit) (handler : string -> M unit) : M unit :=
  fun w => match body w with
           | (w', inl (Psycopg2Error r)) => handler r w'
           | other => other
           end.

Definition logging_error (msg : string) : M unit :=
  modify (fun w => set_log (log w ++ [LogError msg]) w).
Definition logging_info (msg : string) : M unit :=
  modify (fun w => set_log (log w ++ [LogInfo msg]) w).

Definition emit (e : event) : M unit :=
  modify (fun w => set_history (history w ++ [e]) w).

Definition closed_cursor_repr : string := "InterfaceError('cursor already closed')".

Definition busy_connection_repr : string :=
  "ProgrammingError('execute cannot be used while an asynchronous query is underway')".

(** A query is in flight on the connection: the background greenlet is
    suspended inside [executemany].  This is the one suspension inside the
    driver that the model has: an [execute] of the constructor or of [exit]
    is taken in one step with the method around it. *)
Definition in_flight (w : World) : bool :=
  match background w with
  | Some (Writing _) => true
  | _ => false
  end.

Section Reporter.

Variable cfg : Config.

(** [datetime.now(timezone.utc)] *)
Definition datetime_now : M datetime :=
  fun w => (set_ticks (S (ticks w)) w, inr (now cfg (ticks w))).

(** The statement [s] reaches the server, which runs it or fails it. *)
Definition server_runs (s : stmt) : M unit :=
  fun w =>
    match pg_fault cfg (length (calls w)) with
    | None => (set_calls (calls w ++ [(s, Done)]) w, inr tt)
    | Some r => (set_calls (calls w ++ [(s, Failed r)]) w, inl (Psycopg2Error r))
    end.

(** [self._cur.execute(...)]: a closed cursor raises without reaching the
    server, and so does an open one while the background greenlet's
    [executemany] is in flight on the same connection; else the server
    decides. *)
Definition execute (s : stmt) : M unit :=
  fun w =>
    match cur w with
    | Open =>
        if in_flight w
        then (set_calls (calls w ++ [(s, Refused)]) w,
              inl (Psycopg2Error busy_connection_repr))
        else server_runs s w
    | _ => (set_calls (calls w ++ [(s, Refused)]) w,
            inl (Psycopg2Error closed_cursor_repr))
    end.

(** [self._cur.executemany(...)], as it completes for the background
    greenlet, the query in flight being its own: on an open cursor the
    server decides; a closed cursor raises without reaching the server. *)
Definition executemany (s : stmt) : M unit :=
  fun w =>
    match cur w with
    | Open => server_runs s w
    | _ => (set_calls (calls w ++ [(s, Refused)]) w,
            inl (Psycopg2Error closed_cursor_repr))
    end.

(** [cursor.close()] may be repeated.  [connection.close()] may be
    repeated too, but while a query is in flight it waits for the lock of
    the connection, which the suspended greenlet holds: it never returns. *)
Definition cur_close : M unit := modify (set_cur Closed).
Definition conn_close : M unit :=
  fun w => if in_flight w then (w, inl Hangs) else (set_conn Closed w, inr tt).

Definition is_slave : bool := bool_decide ("--slave" ∈ argv cfg).
Definition is_master : bool := bool_decide ("--master" ∈ argv cfg).

(** The loop of [log_start_testrun] over [enumerate(sys.argv)]: [rest] is
    what is left to visit, [index] its position in [sys.argv]. *)
Fixpoint num_clients_loop (rest : list string) (index : nat) (num_clients : pyarg)
  : exn + pyarg :=
  match rest with
  | [] => inr num_clients
  | arg :: rest' =>
      if decide (arg = "-c") then
        match argv cfg !! (index + 1) with
        | Some v => num_clients_loop rest' (S index) (PyStr v)
        | None => inl IndexError
        end
      else num_clients_loop rest' (S index) num_clients
  end.

Definition find_num_clients : exn + pyarg :=
  num_clients_loop (argv cfg) 0 (PyInt 1).

Definition log_start_testrun (self : Reporter) : M unit :=
  num_clients ← (fun w => (w, find_num_clients));
  _ ← execute (INSERT_testrun (_run_id self) (_testplan self) (_profile_name self)
                 num_clients (_rps self) (_description self));
  t ← datetime_now;
  execute (INSERT_events (AsText (isoformat t)) (_testplan self +:+ " started")).

(** [int(x)] on a float: truncation towards zero; it raises on an
    infinity and on a nan. *)
Definition py_int (x : float) : exn + Z :=
  match Prim2SF x with
  | S754_zero _ => inr 0%Z
  | S754_finite s m e =>
      let magnitude :=
        if (0 <=? e)%Z then Z.shiftl (Z.pos m) e else Z.shiftr (Z.pos m) (- e) in
      inr (if s then (- magnitude)%Z else magnitude)
  | S754_infinity _ => inl OverflowError
  | S754_nan => inl ValueError
  end.

(** [str(n)] of an int, as an f-string renders it. *)
Definition py_str_int (n : Z) : string := NilZero.string_of_int (Z.to_int n).

Definition newline : string := String (Ascii.ascii_of_nat 10) EmptyString.

(** The f-string logged by [log_stop_test_run]; its two [int(...)] are
    evaluated left to right. *)
Definition report_line (self : Reporter) (end_time : datetime) : exn + string :=
  match py_int (timestamp (_run_id self) * 1000)%float with
  | inl e => inl e
  | inr from_ms =>
      match py_int ((timestamp end_time + 1) * 1000)%float with
      | inl e => inl e
      | inr to_ms =>
          inr ("Report: " +:+ GRAFANA_URL cfg +:+ "&var-testplan=" +:+ _testplan self
               +:+ "&from=" +:+ py_str_int from_ms
               +:+ "&to=" +:+ py_str_int to_ms +:+ newline)
      end
  end.

Definition log_stop_test_run (self : Reporter) : M unit :=
  end_time ← datetime_now;
  _ ← try_except_psycopg2
        (_ ← execute (UPDATE_testrun end_time (_run_id self));
         execute (INSERT_events (AsDatetime end_time) (_testplan self +:+ " finished")))
        (fun r => logging_error
           ("Failed to update testrun record (or events) with end time to Postgresql timescale database: "
            +:+ r));
  line ← (fun w => (w, report_line self end_time));
  logging_info line.

(** [exit]: a connection object is true whether open or closed, so the
    guard [if self._conn] always holds once [__init__] has set it. *)
Definition exit (self : Reporter) : M unit :=
  _ ← emit E_exit;
  _ ← (if negb is_slave then log_stop_test_run self else mret tt);
  _ ← cur_close;
  conn_close.

(** The dict [_log_request] builds; [current] is the [minimal_ident] of the
    running greenlet, when it has one. *)
Definition make_sample (self : Reporter) (t : datetime) (current : option Z)
    (request_type name : string) (response_time : float) (response_length : Z)
    (success : Z) (exception : pyobj) : Sample :=
  {| s_time := isoformat t;
     s_run_id := _run_id self;
     s_greenlet_id := match current with Some i => i | None => (-1)%Z end;
     s_loadgen := _hostname self;
     s_name := name;
     s_request_type := request_type;
     s_response_time := response_time;
     s_success := success;
     s_testplan := _testplan self;
     s_response_length :=
       if (0 <=? response_length)%Z then Some response_length else None;
     s_exception :=
       if py_bool exception then Some (py_repr exception) else None |}.

(** [lst.append(x)] on the list object at [l]. *)
Definition list_append (l : loc) (x : Sample) : M unit :=
  modify (fun w => set_heap (alter (fun xs => xs ++ [x]) l (heap w)) w).

Definition _log_request (self : Reporter) (current : option Z)
    (request_type name : string) (response_time : float) (response_length : Z)
    (success : Z) (exception : pyobj) : M unit :=
  t ← datetime_now;
  let sample := make_sample self t current request_type name response_time
                  response_length success exception in
  _ ← list_append (_samples self) sample;
  emit (E_append sample).

Definition request_success (self : Reporter) (current : option Z)
    (request_type name : string) (response_time : float) (response_length : Z)
  : M unit :=
  _log_request self current request_type name response_time response_length 1 PyNone.

Definition request_failure (self : Reporter) (current : option Z)
    (request_type name : string) (response_time : float) (exception : pyobj)
  : M unit :=
  _log_request self current request_type name response_time (-1) 0 exception.

(** The list object at [l], as the driver reads it. *)
Definition deref (l : loc) (w : World) : list Sample := default [] (heap w !! l).

Definition write_samples_to_db (samples : loc) : M unit :=
  try_except_psycopg2
    (batch ← get (deref samples);
     executemany (INSERT_request batch))
    (fun r => logging_error
       ("Failed to write samples to Postgresql timescale database: " +:+ r)).

(** ** The reporter among the greenlets *)

(** Where the callers of [quitting] stand: none yet; one blocked in
    [join] and [waiting] more blocked behind it; every call returned; or no
    greenlet runs any more, the process being gone or hanging in its exit
    function. *)
Inductive phase := Running | Joining (waiting : nat) | Returned | Exited.

Global Instance phase_eq_dec : EqDecision phase.
Proof. solve_decision. Defined.

Record State := { self : Reporter; world : World; main : phase }.

(** One turn of the background greenlet, from where it was suspended to its
    next suspension.  From [Sleeping] it evaluates the loop head of [_run]:
    a non-empty buffer is swapped for a new empty list and the old list is
    taken into [write_samples_to_db], where [executemany] blocks; an empty
    buffer ends the loop when [_finished] is set, else the greenlet sleeps
    again.  From [Writing buf] the write completes or fails, and the
    greenlet goes to sleep. *)
Definition _run (st : State) : State :=
  let w := world st in
  match background w with
  | Some Sleeping =>
      let samples_buffer := _samples (self st) in
      match deref samples_buffer w with
      | _ :: _ =>
          let fresh_list := fresh (dom (heap w)) in
          let w1 := set_heap (<[fresh_list := []]> (heap w)) w in
          let w2 := set_history (history w1 ++ [E_drain (deref samples_buffer w)]) w1 in
          {| self := set_samples fresh_list (self st);
             world := set_background (Some (Writing samples_buffer)) w2;
             main := main st |}
      | [] =>
          let w1 := set_history (history w ++ [E_idle]) w in
          if _finished (self st) then
            {| self := self st;
               world := set_background (Some Dead)
                          (set_history (history w1 ++ [E_return]) w1);
               main := main st |}
          else
            {| self := self st; world := set_background (Some Sleeping) w1;
               main := main st |}
      end
  | Some (Writing samples_buffer) =>
      match write_samples_to_db samples_buffer w with
      | (w', inr _) =>
          {| self := self st; world := set_background (Some Sleeping) w';
             main := main st |}
      | (w', inl _) =>
          {| self := self st; world := set_background (Some Dead) w';
             main := main st |}
      end
  | _ => st
  end.

(** [quitting] up to its [join], whoever else is already blocked there. *)
Definition quitting_enter (st : State) : State :=
  let w := world st in
  let w1 := set_history (history w ++ [E_quitting]) w in
  let w2 := set_hooks (filter (fun h => h.1 <> atexit) (hooks w1)) w1 in
  {| self := set_finished true (self st); world := w2;
     main := match main st with
             | Joining waiting => Joining (S waiting)
             | _ => Joining 0
             end |}.

(** One call of [quitting] from the return of its [join]: [exit], whatever
    it raises. *)
Definition quitting_leave (st : State) : State :=
  {| self := self st; world := (exit (self st) (world st)).1;
     main := match main st with
             | Joining (S waiting) => Joining waiting
             | _ => Returned
             end |}.

(** The interpreter shuts down and runs what [atexit] still holds. *)
Definition process_exit (st : State) : State :=
  {| self := self st;
     world := if bool_decide ((atexit, m_exit) ∈ hooks (world st))
              then (exit (self st) (world st)).1 else world st;
     main := Exited |}.

(** What the scheduler and the host can make happen next. *)
Inductive action :=
| Fire_success (current : option Z) (request_type name : string)
               (response_time : float) (response_length : Z)
| Fire_failure (current : option Z) (request_type name : string)
               (response_time : float) (exception : pyobj)
| Resume_background
| Fire_quitting
| Join_returns
| Process_exit.

Definition listening (b : bus) (m : method) (st : State) : bool :=
  bool_decide ((b, m) ∈ hooks (world st)).

Definition with_world (st : State) (w : World) : State :=
  {| self := self st; world := w; main := main st |}.

(** One atomic step.  An action that cannot happen in [st] leaves it as it
    is: a listener fires only while greenlets run and the method is
    subscribed, and [join] returns only for a caller blocked in it and when
    the background greenlet is dead.  [quitting] may be notified again, and
    the interpreter may shut down, at any time. *)
Definition step (a : action) (st : State) : State :=
  match a, main st with
  | _, Exited => st
  | Fire_success current request_type name response_time response_length, _ =>
      if listening events_request_success m_request_success st then
        with_world st
          (request_success (self st) current request_type name response_time
             response_length (world st)).1
      else st
  | Fire_failure current request_type name response_time exception, _ =>
      if listening events_request_failure m_request_failure st then
        with_world st
          (request_failure (self st) current request_type name response_time
             exception (world st)).1
      else st
  | Resume_background, _ => _run st
  | Fire_quitting, _ =>
      if listening events_quitting m_quitting st then quitting_enter st else st
  | Join_returns, Joining _ =>
      if bool_decide (background (world st) = Some Dead) then quitting_leave st else st
  | Join_returns, _ => st
  | Process_exit, _ => process_exit st
  end.

Definition run (schedule : list action) (st : State) : State :=
  foldl (fun s a => step a s) st schedule.

(** ** Construction *)

Definition connect : M unit :=
  fun w =>
    match environ cfg !! "PGHOST" with
    | None => (w, inl (KeyError "PGHOST"))
    | Some _ =>
        if connect_ok cfg then (set_conn Open w, inr tt)
        else (w, inl OperationalError)
    end.

(** [try: ... except Exception: logging.error(...); raise] *)
Definition try_except_log_raise (body : M unit) (msg : string) : M unit :=
  fun w => match body w with
           | (w', inl e) => (set_log (log w' ++ [LogError msg]) w', inl e)
           | other => other
           end.

Definition new_list : M loc :=
  fun w => let l := fresh (dom (heap w)) in
           (set_heap (<[l := []]> (heap w)) w, inr l).

Definition environ_get (key : string) : M string :=
  match environ cfg !! key with
  | Some v => mret v
  | None => raise (KeyError key)
  end.

Definition parser_parse (text : string) : M datetime :=
  match parse cfg text with
  | Some d => mret d
  | None => raise (ParserError text)
  end.

Definition __init__ (testplan profile_name description : string) : M Reporter :=
  _ ← try_except_log_raise connect
        "Use standard postgres env vars to specify where to report locust samples (https://www.postgresql.org/docs/11/libpq-envars.html)";
  _ ← modify (set_cur Open);
  _ ← (if decide (testplan = "") then raise AssertionError else mret tt);
  samples ← new_list;
  _ ← modify (set_background (Some Sleeping));
  run_id ← (if is_slave || is_master
            then (text ← environ_get "LOCUST_RUN_ID"; parser_parse text)
            else datetime_now);
  let self := {| _testplan := testplan; _hostname := gethostname cfg;
                 _samples := samples; _finished := false; _run_id := run_id;
                 _profile_name := profile_name;
                 _rps := default "0" (environ cfg !! "LOCUST_RPS");
                 _description := description |} in
  _ ← (if negb is_slave then log_start_testrun self else mret tt);
  _ ← modify (fun w => set_hooks (hooks w ++
                [(events_request_success, m_request_success);
                 (events_request_failure, m_request_failure);
                 (events_quitting, m_quitting);
                 (atexit, m_exit)]) w);
  mret self.

End Reporter.

(** ** Observations on a state *)

Definition appended (h : list event) : list Sample :=
  omap (fun e => match e with E_append s => Some s | _ => None end) h.

Definition drained (h : list event) : list (list Sample) :=
  omap (fun e => match e with E_drain b => Some b | _ => None end) h.

(** The batches handed to [executemany], whatever became of them. *)
Definition written (c : list (stmt * outcome)) : list (list Sample) :=
  omap (fun so => match so.1 with INSERT_request b => Some b | _ => None end) c.

Definition is_run_start (s : stmt) : bool :=
  match s with INSERT_testrun _ _ _ _ _ _ => true | _ => false end.
Definition is_run_end (s : stmt) : bool :=
  match s with UPDATE_testrun _ _ => true | _ => false end.

Definition run_start_writes (w : World) : nat :=
  length (filter (fun so => is_run_start so.1) (calls w)).
Definition run_end_writes (w : World) : nat :=
  length (filter (fun so => is_run_end so.1) (calls w)).

Definition is_info (l : logrec) : bool :=
  match l with LogInfo _ => true | LogError _ => false end.

(** The statements the server ran. *)
Definition committed (w : World) : list stmt :=
  omap (fun so => match so.2 with Done => Some so.1 | _ => None end) (calls w).

Definition buffer (st : State) : list Sample :=
  deref (_samples (self st)) (world st).

Definition by_greenlet (g : Z) (l : list Sample) : list Sample :=
  filter (fun s => s_greenlet_id s = g) l.


(** The last position of ["-c"] in a list of arguments. *)
Fixpoint last_flag (l : list string) : option nat :=
  match l with
  | [] => None
  | x :: l' =>
      match last_flag l' with
      | Some i => Some (S i)
      | None => if decide (x = "-c") then Some 0 else None
      end
  end.

(** The state a constructed reporter starts from. *)
Definition started (r : Reporter) (w : World) : State :=
  {| self := r; world := w; main := Running |}.

(** ** Concrete processes *)

Definition example_clock (n : nat) : datetime :=
  Datetime (1700000000 + PrimFloat.of_uint63 (Uint63.of_Z (Z.of_nat n)))%float.

Definition example_parse (text : string) : option datetime :=
  if decide (text = "2020-01-01T00:00:00+00:00") then Some (Datetime 1577836800) else None.

Definition example_environ : gmap string string :=
  <["PGHOST" := "db"]> (<["LOCUST_RUN_ID" := "2020-01-01T00:00:00+00:00"]> ∅).

Definition example_config (args : list string) : Config :=
  {| argv := args; environ := example_environ;
     GRAFANA_URL := "http://grafana/d/1?orgId=1";
     gethostname := "loadgen1"; now := example_clock; parse := example_parse;
     connect_ok := true; pg_fault := fun _ => None |}.

Definition standalone : Config := example_config ["locust"; "-f"; "plan.py"; "-c"; "10"].
Definition leader : Config := example_config ["locust"; "--master"].
Definition follower : Config := example_config ["locust"; "--slave"].

(** The same standalone process on a server that fails its third call. *)
Definition flaky : Config :=
  {| argv := argv standalone; environ := example_environ;
     GRAFANA_URL := GRAFANA_URL standalone;
     gethostname := "loadgen1"; now := example_clock; parse := example_parse;
     connect_ok := true;
     pg_fault := fun n => if decide (n = 2) then Some "OperationalError('gone')" else None |}.

Definition example_reporter (c : Config) : Reporter :=
  match __init__ c "plan" "" "" initial_world with
  | (_, inr r) => r
  | (_, inl _) =>
      {| _testplan := "plan"; _hostname := ""; _samples := 0; _finished := false;
         _run_id := Datetime 0; _profile_name := ""; _rps := ""; _description := "" |}
  end.

Definition example_world (c : Config) : World :=
  (__init__ c "plan" "" "" initial_world).1.

Definition example_state (c : Config) : State :=
  started (example_reporter c) (example_world c).

(** ** Schedules *)

(** Schedules of a short run: two greenlets report three requests while the
    background greenlet drains twice; then the host notifies [quitting]. *)
Definition busy_schedule : list action :=
  [Fire_success (Some 7%Z) "GET" "/a" 12 150;
   Resume_background;
   Fire_failure (Some 8%Z) "GET" "/b" 30 (PyObj true "ConnectionError()");
   Fire_success (Some 7%Z) "GET" "/c" 9 10;
   Resume_background;
   Resume_background;
   Resume_background].

Definition quit_schedule : list action :=
  busy_schedule ++ [Fire_quitting; Resume_background; Join_returns; Process_exit].

(** The host notifies [quitting] a second time, after the first call has
    returned. *)
Definition requit_schedule : list action :=
  busy_schedule
  ++ [Fire_quitting; Resume_background; Join_returns; Fire_quitting; Join_returns].

(** The interpreter shuts down while the one call of [quitting] waits in
    [join]. *)
Definition abandoned_schedule : list action :=
  busy_schedule ++ [Fire_quitting; Process_exit].

(** ** Invariants *)

(** A computation that cannot raise [e]. *)
Definition never_raises {A} (e : exn) (m : M A) : Prop :=
  forall w, (m w).2 <> inl e.

(** What [__init__] subscribes. *)
Definition subscriptions : list (bus * method) :=
  [(events_request_success, m_request_success);
   (events_request_failure, m_request_failure);
   (events_quitting, m_quitting);
   (atexit, m_exit)].

(** The buffer and the batches: the list object [_samples] exists; what
    was drained, followed by the buffer, is what was appended; the drained
    batches are the ones handed to the driver, but for the one being
    written, which sits in a list object other than the buffer; and right
    after a drain the buffer is empty. *)
Definition buffer_inv (st : State) : Prop :=
  let w := world st in
  is_Some (heap w !! _samples (self st)) /\
  concat (drained (history w)) ++ buffer st = appended (history w) /\
  match background w with
  | Some (Writing l) =>
      l <> _samples (self st) /\
      exists b, heap w !! l = Some b /\ drained (history w) = written (calls w) ++ [b]
  | _ => drained (history w) = written (calls w)
  end /\
  (forall h' b, history w = h' ++ [E_drain b] -> buffer st = []).

Definition is_exit (e : event) : bool :=
  match e with E_exit => true | _ => false end.
Definition is_quitting (e : event) : bool :=
  match e with E_quitting => true | _ => false end.

(** How many times [exit] was entered, and [quitting] notified. *)
Definition exits (h : list event) : nat := length (filter is_exit h).
Definition quits (h : list event) : nat := length (filter is_quitting h).

(** The history of a run whose background greenlet has returned: after the
    first [quitting] the loop head found the buffer empty and [_run]
    returned at once; up to that pass every sample appended was drained,
    [exit] was not entered and [_run] had not returned; and nothing was
    drained since. *)
Definition final_pass (h : list event) : Prop :=
  exists a b c,
    h = a ++ E_quitting :: b ++ E_idle :: E_return :: c /\
    (E_quitting ∉ a) /\ (E_exit ∉ a ++ E_quitting :: b) /\
    (E_return ∉ a ++ E_quitting :: b) /\
    concat (drained (a ++ E_quitting :: b)) = appended (a ++ E_quitting :: b) /\
    drained c = [].

(** Every [exit] entered after a [quitting] has, between the first
    [quitting] and itself, a pass of the loop head that found the buffer
    empty, directly followed by the return of [_run]; up to that pass
    every sample appended was drained, and nothing was drained since.  A
    [quitting] notified before [_run] returned has that pass after it. *)
Definition exit_guarded (h : list event) : Prop :=
  forall pre post,
    h = pre ++ E_exit :: post -> E_quitting ∈ pre ->
    (exists a b c,
        pre = a ++ E_quitting :: b ++ E_idle :: E_return :: c /\
        (E_quitting ∉ a) /\
        concat (drained (a ++ E_quitting :: b)) = appended (a ++ E_quitting :: b) /\
        drained h = drained (a ++ E_quitting :: b)) /\
    (forall a b,
        pre = a ++ E_quitting :: b -> E_return ∉ a ->
        exists b1 c, b = b1 ++ E_idle :: E_return :: c).

(** The shape of the history: while the background greenlet lives [_run]
    has not returned, no [exit] follows a [quitting], and a process that
    still runs has not entered [exit] at all; once the greenlet is dead the
    history has its final pass. *)
Definition shape_inv (st : State) : Prop :=
  let w := world st in
  let h := history w in
  (main st <> Exited -> background w <> Some Dead -> exits h = 0) /\
  (background w <> Some Dead ->
   (E_return ∉ h) /\
   forall pre post, h = pre ++ E_exit :: post -> E_quitting ∉ pre) /\
  (background w = Some Dead -> final_pass h).

(** The run records and the phases of shutdown: every entry into [exit]
    of a process that is no follower makes one run-end update; every call
    of [quitting] enters [exit] once, when its [join] returns; the exit
    function registered with [atexit] enters it only if [quitting] was
    never called. *)
Definition life_inv (cfg : Config) (st : State) : Prop :=
  let w := world st in
  let h := history w in
  run_start_writes w = (if is_slave cfg then 0 else 1) /\
  run_end_writes w = (if is_slave cfg then 0 else exits h) /\
  match main st with
  | Running =>
      quits h = 0 /\ exits h = 0 /\ ((atexit, m_exit) ∈ hooks w) /\
      _finished (self st) = false /\ background w <> Some Dead
  | Joining waiting =>
      quits h = exits h + S waiting /\ ((atexit, m_exit) ∉ hooks w)
  | Returned =>
      quits h = exits h /\ 1 <= quits h /\ ((atexit, m_exit) ∉ hooks w) /\
      background w = Some Dead
  | Exited =>
      (quits h = 0 /\ exits h = 1) \/ (1 <= quits h /\ exits h <= quits h)
  end /\
  (_finished (self st) = true -> 1 <= quits h) /\
  shape_inv st.

(** ** Further observations *)

(** The text [__init__] logs when the connection cannot be made. *)
Definition connect_guidance : string :=
  "Use standard postgres env vars to specify where to report locust samples (https://www.postgresql.org/docs/11/libpq-envars.html)".

(** The text [log_stop_test_run] logs before the repr of the error. *)
Definition run_end_failure : string :=
  "Failed to update testrun record (or events) with end time to Postgresql timescale database: ".

(** A sample that carries the run id, the testplan and the host name of
    the reporter [r]. *)
Definition stamped (r : Reporter) (s : Sample) : Prop :=
  s_run_id s = _run_id r /\ s_testplan s = _testplan r /\ s_loadgen s = _hostname r.

Definition refused (o : outcome) : bool :=
  match o with Refused => true | _ => false end.

Definition is_batch (s : stmt) : bool :=
  match s with INSERT_request _ => true | _ => false end.

(** A process whose environment lacks [PGHOST], and a distributed one
    whose [LOCUST_RUN_ID] is missing. *)
Definition no_pghost : Config :=
  {| argv := ["locust"]; environ := ∅; GRAFANA_URL := GRAFANA_URL standalone;
     gethostname := "loadgen1"; now := example_clock; parse := example_parse;
     connect_ok := true; pg_fault := fun _ => None |}.

Definition no_run_id : Config :=
  {| argv := ["locust"; "--slave"]; environ := <["PGHOST" := "db"]> ∅;
     GRAFANA_URL := GRAFANA_URL standalone;
     gethostname := "loadgen1"; now := example_clock; parse := example_parse;
     connect_ok := true; pg_fault := fun _ => None |}.

(** A standalone process on a server that fails the call numbered [n]. *)
Definition failing_at (n : nat) : Config :=
  {| argv := argv standalone; environ := example_environ;
     GRAFANA_URL := GRAFANA_URL standalone;
     gethostname := "loadgen1"; now := example_clock; parse := example_parse;
     connect_ok := true;
     pg_fault := fun k => if decide (k = n) then Some "OperationalError('gone')" else None |}.

(** The samples every sample appended so far is stamped with, and the
    attributes of [self] that never change. *)
Definition stamp_inv (r : Reporter) (st : State) : Prop :=
  _run_id (self st) = _run_id r /\ _testplan (self st) = _testplan r /\
  _hostname (self st) = _hostname r /\
  Forall (stamped r) (appended (history (world st))).

(** How the reporter conducts itself: the listeners stay subscribed, the
    greenlet exists, and until [exit] is entered the cursor is open and no
    call was refused. *)
Definition conduct_inv (st : State) : Prop :=
  let w := world st in
  ((events_request_success, m_request_success) ∈ hooks w) /\
  ((events_request_failure, m_request_failure) ∈ hooks w) /\
  ((events_quitting, m_quitting) ∈ hooks w) /\
  background w <> None /\
  (exits (history w) = 0 ->
   cur w = Open /\ Forall (fun c => refused c.2 = false) (calls w)).

(** An upper bound on the turns the background greenlet needs to return
    once [_finished] is set and no more samples arrive. *)
Definition turns_left (st : State) : nat :=
  match background (world st), buffer st with
  | Some Sleeping, [] => 1
  | Some (Writing _), [] => 2
  | Some Sleeping, _ :: _ => 3
  | Some (Writing _), _ :: _ => 4
  | _, _ => 0
  end.

(** [quitting], four turns of the background greenlet, and the return of
    [join]. *)
Definition shutdown_schedule : list action :=
  [Fire_quitting; Resume_background; Resume_background; Resume_background;
   Resume_background; Join_returns].

(** The batches whose [executemany] the server ran. *)
Definition stored (c : list (stmt * outcome)) : list (list Sample) :=
  omap (fun so => match so with
                  | (INSERT_request b, Done) => Some b
                  | _ => None
                  end) c.

(** A call whose outcome the server accounts for: it ran, or it failed
    with an error the server raised; it was not refused by the driver. *)
Definition explained (cfg : Config) (c : stmt * outcome) : Prop :=
  match c.2 with
  | Done => True
  | Failed err => exists n, pg_fault cfg n = Some err
  | Refused => False
  end.

(** The calls of a run are accounted for: every batch write, and every
    call made before [exit] was first entered. *)
Definition accounted (cfg : Config) (st : State) : Prop :=
  Forall (fun c => is_batch c.1 = true -> explained cfg c) (calls (world st)) /\
  (exits (history (world st)) = 0 -> Forall (explained cfg) (calls (world st))).

(** A process whose database cannot be reached, and a follower whose
    [LOCUST_RUN_ID] is not a date. *)
Definition unreachable : Config :=
  {| argv := ["locust"]; environ := example_environ;
     GRAFANA_URL := GRAFANA_URL standalone;
     gethostname := "loadgen1"; now := example_clock; parse := example_parse;
     connect_ok := false; pg_fault := fun _ => None |}.

Definition bad_run_id : Config :=
  {| argv := ["locust"; "--slave"];
     environ := <["PGHOST" := "db"]> (<["LOCUST_RUN_ID" := "yesterday"]> ∅);
     GRAFANA_URL := GRAFANA_URL standalone;
     gethostname := "loadgen1"; now := example_clock; parse := example_parse;
     connect_ok := true; pg_fault := fun _ => None |}.

(** What happens after a clean shutdown in the examples: one more
    request is reported, the dead greenlet is resumed, the process exits. *)
Definition late_schedule : list action :=
  [Fire_success (Some 9%Z) "GET" "/late" 5 1; Resume_background; Process_exit].

(** * Properties *)

Ltac unfold_M :=
  unfold mbind, M_bind, mret, M_ret, raise, emit, logging_error, logging_info,
    try_except_psycopg2, cur_close, conn_close, datetime_now, modify, get in *.

(** ** The client count of the run-start record *)

Section ClientCount.

Variable cfg : Config.

Lemma num_clients_loop_spec (rest pre : list string) (acc : pyarg) :
  argv cfg = pre ++ rest ->
  num_clients_loop cfg rest (length pre) acc =
    match last_flag rest with
    | None => inr acc
    | Some i =>
        match rest !! (i + 1) with
        | Some v => inr (PyStr v)
        | None => inl IndexError
        end
    end.
Proof.
  revert pre acc.
  induction rest as [|arg rest' IH]; intros pre acc Hargv; [reflexivity|].
  assert (Hnext : argv cfg = (pre ++ [arg]) ++ rest') by (rewrite <- app_assoc; exact Hargv).
  assert (Hlen : length (pre ++ [arg]) = S (length pre)) by (rewrite length_app; simpl; lia).
  simpl. destruct (decide (arg = "-c")) as [->|Hne].
  - assert (Hat : argv cfg !! (length pre + 1) = rest' !! 0).
    { rewrite Hnext, lookup_app_r by lia. f_equal. lia. }
    rewrite Hat. destruct (rest' !! 0) as [v|] eqn:Hhead.
    + rewrite <- Hlen, (IH _ _ Hnext).
      destruct (last_flag rest') as [i|]; simpl; [reflexivity|].
      rewrite Hhead. reflexivity.
    + destruct rest' as [|v rest'']; [reflexivity | discriminate].
  - rewrite <- Hlen, (IH _ _ Hnext).
    destruct (last_flag rest') as [i|]; simpl; reflexivity.
Qed.

Lemma last_flag_None (l : list string) : last_flag l = None <-> "-c" ∉ l.
Proof.
  induction l as [|x l IH]; simpl.
  - split; [intros _; apply not_elem_of_nil | reflexivity].
  - rewrite not_elem_of_cons. destruct (last_flag l) as [i|].
    + split; [discriminate|]. intros [_ H]. apply IH in H. discriminate.
    + destruct (decide (x = "-c")) as [->|Hne].
      * split; [discriminate | intros [H _]; congruence].
      * split; [intros _; split; [congruence | apply IH; reflexivity] | reflexivity].
Qed.

Lemma last_flag_Some (l : list string) (i : nat) :
  last_flag l = Some i <->
  l !! i = Some "-c" /\ forall j, i < j -> l !! j <> Some "-c".
Proof.
  revert i. induction l as [|x l IH]; intros i; simpl.
  - split; [discriminate | intros [H _]; discriminate].
  - destruct (last_flag l) as [k|] eqn:Hl.
    + split.
      * intros [= <-]. destruct (proj1 (IH k) eq_refl) as [Hk Hafter].
        split; [exact Hk|]. intros [|j] Hj; [lia|]. simpl. apply Hafter. lia.
      * intros [Hi Hafter]. destruct i as [|i].
        -- destruct (proj1 (IH k) eq_refl) as [Hk _].
           exfalso. apply (Hafter (S k)); [lia | exact Hk].
        -- assert (Hk : Some k = Some i); [|congruence].
           apply IH. split; [exact Hi|].
           intros j Hj. apply (Hafter (S j)). lia.
    + assert (Hnot : "-c" ∉ l) by (apply last_flag_None; exact Hl).
      destruct (decide (x = "-c")) as [->|Hne].
      * split.
        -- intros [= <-]. split; [reflexivity|]. intros [|j] Hj; [lia|]. simpl.
           intros Hj'. apply Hnot. eapply list_elem_of_lookup_2. exact Hj'.
        -- intros [Hi _]. destruct i as [|i]; [reflexivity|]. simpl in Hi.
           exfalso. apply Hnot. eapply list_elem_of_lookup_2. exact Hi.
      * split; [discriminate|]. intros [Hi _]. destruct i as [|i]; simpl in Hi.
        -- congruence.
        -- exfalso. apply Hnot. eapply list_elem_of_lookup_2. exact Hi.
Qed.

(** C10: the recorded client count is the element of [sys.argv] right
    after the last ["-c"], as the string it is; it is the int [1] when
    there is no ["-c"]; and when the last ["-c"] is the final element
    (nothing follows it) the lookup raises [IndexError]. *)
Theorem num_clients_from_argv :
  ("-c" ∉ argv cfg -> find_num_clients cfg = inr (PyInt 1)) /\
  (forall i v,
      argv cfg !! i = Some "-c" ->
      (forall j, i < j -> argv cfg !! j <> Some "-c") ->
      argv cfg !! (i + 1) = Some v ->
      find_num_clients cfg = inr (PyStr v)) /\
  (last (argv cfg) = Some "-c" -> find_num_clients cfg = inl IndexError) /\
  (forall r w num_clients,
      find_num_clients cfg = inr num_clients ->
      exists o,
        calls (log_start_testrun cfg r w).1 !! length (calls w)
        = Some (INSERT_testrun (_run_id r) (_testplan r) (_profile_name r)
                  num_clients (_rps r) (_description r), o)) /\
  (forall r w e,
      find_num_clients cfg = inl e -> log_start_testrun cfg r w = (w, inl e)).
Proof.
  split; [|split; [|split; [|split]]]; cycle 3.
  { intros r w num_clients Hnc. unfold log_start_testrun, execute, server_runs. unfold_M.
    rewrite Hnc. destruct w as [n c k cs l h b hk hs]. simpl.
    destruct k; destruct b as [[]|]; simpl;
      repeat (match goal with
              | |- context [pg_fault cfg ?n] => destruct (pg_fault cfg n); simpl
              end);
      eexists; rewrite <- ?app_assoc; apply list_lookup_middle; reflexivity. }
  { intros r w e He. unfold log_start_testrun. unfold_M. rewrite He. reflexivity. }
  all: unfold find_num_clients;
    pose proof (num_clients_loop_spec (argv cfg) [] (PyInt 1) eq_refl) as Hloop;
    simpl in Hloop; rewrite Hloop; clear Hloop.
  - intros Hnot. apply last_flag_None in Hnot. rewrite Hnot. reflexivity.
  - intros i v Hi Hafter Hv.
    rewrite (proj2 (last_flag_Some _ i) (conj Hi Hafter)), Hv. reflexivity.
  - intros Hlast.
    assert (Hlen : 0 < length (argv cfg)).
    { destruct (argv cfg); [discriminate | simpl; lia]. }
    assert (Hi : argv cfg !! (length (argv cfg) - 1) = Some "-c").
    { rewrite <- Hlast, last_lookup. f_equal. lia. }
    assert (Hflag : last_flag (argv cfg) = Some (length (argv cfg) - 1)).
    { apply last_flag_Some. split; [exact Hi|].
      intros j Hj. rewrite lookup_ge_None_2 by lia. discriminate. }
    rewrite Hflag, lookup_ge_None_2 by lia. reflexivity.
Qed.

End ClientCount.

Lemma num_clients_from_argv_witness :
  find_num_clients (example_config ["locust"; "--master"]) = inr (PyInt 1) /\
  find_num_clients (example_config ["locust"; "-c"; "5"; "-c"; "10"; "-f"]) = inr (PyStr "10") /\
  find_num_clients (example_config ["locust"; "-c"; "5"; "-c"]) = inl IndexError /\
  (exists o,
      calls (log_start_testrun standalone (example_reporter standalone) initial_world).1 !! 0
      = Some (INSERT_testrun (now standalone 0) "plan" "" (PyStr "10") "0" "", o)) /\
  log_start_testrun (example_config ["locust"; "-c"]) (example_reporter standalone)
    initial_world = (initial_world, inl IndexError).
Proof.
  split; [|split; [|split; [|split]]].
  - apply (num_clients_from_argv (example_config ["locust"; "--master"])).
    vm_compute. intros H. repeat (apply elem_of_cons in H; destruct H as [H|H]; [discriminate|]).
    inversion H.
  - apply (proj1 (proj2 (num_clients_from_argv
             (example_config ["locust"; "-c"; "5"; "-c"; "10"; "-f"]))) 3 "10").
    + reflexivity.
    + intros j Hj. do 6 (destruct j as [|j]; [first [lia | discriminate]|]). discriminate.
    + reflexivity.
  - apply (proj1 (proj2 (proj2 (num_clients_from_argv
             (example_config ["locust"; "-c"; "5"; "-c"]))))).
    reflexivity.
  - apply (proj1 (proj2 (proj2 (proj2 (num_clients_from_argv standalone))))
             (example_reporter standalone) initial_world (PyStr "10")).
    reflexivity.
  - apply (proj2 (proj2 (proj2 (proj2 (num_clients_from_argv
             (example_config ["locust"; "-c"])))))).
    reflexivity.
Defined.

(** ** Stepping through computations that may raise *)

Lemma bind_inr {A B} (m : M A) (f : A -> M B) (w w' : World) (b : B) :
  (m ≫= f) w = (w', inr b) ->
  exists a w1, m w = (w1, inr a) /\ f a w1 = (w', inr b).
Proof.
  unfold mbind, M_bind. destruct (m w) as [w1 [e|a]]; [discriminate|].
  intros H. exists a, w1. split; [reflexivity | exact H].
Qed.

Lemma never_raises_bind {A B} (e : exn) (m : M A) (f : A -> M B) :
  never_raises e m -> (forall a, never_raises e (f a)) -> never_raises e (m ≫= f).
Proof.
  intros Hm Hf w. unfold mbind, M_bind. specialize (Hm w).
  destruct (m w) as [w1 [e'|a]]; simpl in *; [|apply Hf].
  intros [= ->]. apply Hm. reflexivity.
Qed.

Lemma never_raises_ret {A} (e : exn) (a : A) : never_raises e (mret a : M A).
Proof. intros w. discriminate. Qed.

Lemma never_raises_modify (e : exn) (f : World -> World) : never_raises e (modify f).
Proof. intros w. discriminate. Qed.

Section Construction.

Variable cfg : Config.

Lemma execute_raises (s : stmt) (w w' : World) (e : exn) :
  execute cfg s w = (w', inl e) -> exists r, e = Psycopg2Error r.
Proof.
  unfold execute, server_runs.
  destruct (cur w); [| destruct (in_flight w); [|destruct (pg_fault cfg _)] |];
    intros [= _ <-]; eauto.
Qed.

Lemma num_clients_loop_raises (rest : list string) (index : nat) (acc : pyarg) (e : exn) :
  num_clients_loop cfg rest index acc = inl e -> e = IndexError.
Proof.
  revert index acc. induction rest as [|arg rest IH]; intros index acc; simpl; [discriminate|].
  destruct (decide (arg = "-c")); [destruct (argv cfg !! (index + 1))|]; eauto.
  intros [= <-]. reflexivity.
Qed.

Lemma log_start_testrun_no_assert (r : Reporter) :
  never_raises AssertionError (log_start_testrun cfg r).
Proof.
  unfold log_start_testrun. apply never_raises_bind.
  - intros w. simpl. unfold find_num_clients. intros H.
    apply num_clients_loop_raises in H. discriminate.
  - intros nc. apply never_raises_bind.
    + intros w H. destruct (execute cfg _ w) as [w' [e|[]]] eqn:He; [|discriminate].
      simpl in H. injection H as ->. apply execute_raises in He as [? ?]. discriminate.
    + intros _. apply never_raises_bind; [intros w; discriminate|].
      intros t w H. destruct (execute cfg _ w) as [w' [e|[]]] eqn:He; [|discriminate].
      simpl in H. injection H as ->. apply execute_raises in He as [? ?]. discriminate.
Qed.

(** C9: with an empty testplan the constructor stops at its assertion, the
    connection and the cursor open and nothing else done: no listener
    subscribed, no statement sent, no greenlet spawned.  With any other
    testplan the constructor does not raise [AssertionError]. *)
Theorem empty_testplan_asserts (profile_name description : string) (w0 : World) :
  (forall host,
      environ cfg !! "PGHOST" = Some host -> connect_ok cfg = true ->
      exists w,
        __init__ cfg "" profile_name description w0 = (w, inl AssertionError) /\
        conn w = Open /\ cur w = Open /\
        hooks w = hooks w0 /\ calls w = calls w0 /\ background w = background w0 /\
        heap w = heap w0 /\ log w = log w0) /\
  (forall testplan,
      testplan <> "" ->
      (__init__ cfg testplan profile_name description w0).2 <> inl AssertionError).
Proof.
  split.
  - intros host Hhost Hok. exists (set_cur Open (set_conn Open w0)).
    split; [|repeat split].
    unfold __init__, try_except_log_raise, connect, mbind, M_bind.
    rewrite Hhost, Hok. reflexivity.
  - intros testplan Hne. revert w0. fold (never_raises AssertionError
      (__init__ cfg testplan profile_name description)).
    unfold __init__. apply never_raises_bind.
    { intros w. unfold try_except_log_raise, connect.
      destruct (environ cfg !! "PGHOST"); [destruct (connect_ok cfg)|]; discriminate. }
    intros _. apply never_raises_bind; [apply never_raises_modify|].
    intros _. apply never_raises_bind.
    { destruct (decide (testplan = "")); [contradiction | apply never_raises_ret]. }
    intros _. apply never_raises_bind; [intros w; discriminate|].
    intros samples. apply never_raises_bind; [apply never_raises_modify|].
    intros _. apply never_raises_bind.
    { destruct (is_slave cfg || is_master cfg); [|intros w; discriminate].
      apply never_raises_bind.
      - unfold environ_get. destruct (environ cfg !! "LOCUST_RUN_ID"); intros w; discriminate.
      - intros text. unfold parser_parse. destruct (parse cfg text); intros w; discriminate. }
    intros run_id. apply never_raises_bind.
    { destruct (negb (is_slave cfg)); [apply log_start_testrun_no_assert | apply never_raises_ret]. }
    intros _. apply never_raises_bind; [apply never_raises_modify|].
    intros _. apply never_raises_ret.
Qed.

(** C3, as the code has it: when [sys.argv] holds the follower or the
    leader marker, the run id is the externally supplied [LOCUST_RUN_ID],
    parsed; only a standalone process takes the current time. *)
Theorem run_id_source (testplan profile_name description : string)
    (w0 w : World) (r : Reporter) :
  __init__ cfg testplan profile_name description w0 = (w, inr r) ->
  (is_slave cfg || is_master cfg = true ->
   exists text, environ cfg !! "LOCUST_RUN_ID" = Some text /\
                parse cfg text = Some (_run_id r)) /\
  (is_slave cfg || is_master cfg = false -> _run_id r = now cfg (ticks w0)).
Proof.
  unfold __init__. intros H.
  apply bind_inr in H as ([] & w1 & Hconnect & H).
  apply bind_inr in H as ([] & w2 & Hcur & H).
  apply bind_inr in H as ([] & w3 & Hassert & H).
  apply bind_inr in H as (samples & w4 & Hnew & H).
  apply bind_inr in H as ([] & w5 & Hspawn & H).
  apply bind_inr in H as (run_id & w6 & Hrun & H).
  apply bind_inr in H as ([] & w7 & Hstart & H).
  apply bind_inr in H as ([] & w8 & Hhooks & H).
  injection H as _ <-. simpl.
  assert (Hticks : ticks w5 = ticks w0).
  { injection Hspawn as <-. injection Hnew as <- _.
    destruct (decide (testplan = "")); [discriminate|]. injection Hassert as <-.
    injection Hcur as <-. unfold try_except_log_raise, connect in Hconnect.
    destruct (environ cfg !! "PGHOST"); [destruct (connect_ok cfg)|];
      inversion Hconnect; reflexivity. }
  destruct (is_slave cfg || is_master cfg); split; try discriminate; intros _.
  - apply bind_inr in Hrun as (text & w' & Htext & Hparse).
    exists text. unfold environ_get in Htext. unfold parser_parse in Hparse.
    destruct (environ cfg !! "LOCUST_RUN_ID"); [|discriminate]. injection Htext as _ ->.
    destruct (parse cfg text); [|discriminate]. injection Hparse as _ ->. split; reflexivity.
  - injection Hrun as _ <-. rewrite Hticks. reflexivity.
Qed.

End Construction.

Lemma empty_testplan_asserts_witness :
  (exists w,
      __init__ standalone "" "" "" initial_world = (w, inl AssertionError) /\
      conn w = Open /\ cur w = Open /\
      hooks w = [] /\ calls w = [] /\ background w = None /\
      heap w = ∅ /\ log w = []) /\
  (__init__ standalone "plan" "" "" initial_world).2 <> inl AssertionError.
Proof.
  split.
  - apply (proj1 (empty_testplan_asserts standalone "" "" initial_world) "db");
      reflexivity.
  - apply (proj2 (empty_testplan_asserts standalone "" "" initial_world) "plan").
    discriminate.
Defined.

Lemma datetime_neq (a b : datetime) :
  PrimFloat.eqb (timestamp a) (timestamp a) = true ->
  PrimFloat.eqb (timestamp a) (timestamp b) = false -> a <> b.
Proof. intros Ha Hab ->. congruence. Qed.

(** C3 as stated fails for a distributed leader: started with
    [--master] it is a coordinator, yet its run id is the parsed
    [LOCUST_RUN_ID], not the time of construction. *)
Lemma leader_run_id_is_not_generated :
  is_slave leader = false /\
  exists w r,
    __init__ leader "plan" "" "" initial_world = (w, inr r) /\
    parse leader "2020-01-01T00:00:00+00:00" = Some (_run_id r) /\
    _run_id r <> now leader (ticks initial_world).
Proof.
  split; [reflexivity|].
  eexists _, _. split; [vm_compute; reflexivity|].
  split; [reflexivity|].
  apply datetime_neq; vm_compute; reflexivity.
Qed.

Lemma run_id_source_witness :
  (exists text, environ follower !! "LOCUST_RUN_ID" = Some text /\
                parse follower text = Some (_run_id (example_reporter follower))) /\
  _run_id (example_reporter standalone) = now standalone 0.
Proof.
  assert (Hfollower : __init__ follower "plan" "" "" initial_world
                      = (example_world follower, inr (example_reporter follower)))
    by (vm_compute; reflexivity).
  assert (Hstandalone : __init__ standalone "plan" "" "" initial_world
                        = (example_world standalone, inr (example_reporter standalone)))
    by (vm_compute; reflexivity).
  split.
  - apply (proj1 (run_id_source follower "plan" "" "" initial_world _ _ Hfollower)).
    reflexivity.
  - apply (proj2 (run_id_source standalone "plan" "" "" initial_world _ _ Hstandalone)).
    reflexivity.
Defined.

(** ** Samples built by the listeners *)

Section Listeners.

Variable cfg : Config.

Lemma log_request_effect (r : Reporter) (current : option Z) (request_type name : string)
    (response_time : float) (response_length success : Z) (exception : pyobj) (w : World) :
  let sample := make_sample r (now cfg (ticks w)) current request_type name
                  response_time response_length success exception in
  _log_request cfg r current request_type name response_time response_length
    success exception w =
  (set_history (history w ++ [E_append sample])
     (set_heap (alter (fun xs => xs ++ [sample]) (_samples r) (heap w))
        (set_ticks (S (ticks w)) w)), inr tt).
Proof. reflexivity. Qed.


End Listeners.



(** ** The exit sequence *)

Section Exit.

Variable cfg : Config.

(** What [exit] leaves alone, and the one event it records. *)
Lemma exit_frame (r : Reporter) (w : World) :
  let w' := (exit cfg r w).1 in
  history w' = history w ++ [E_exit] /\ heap w' = heap w /\ hooks w' = hooks w /\
  background w' = background w /\ written (calls w') = written (calls w) /\
  run_start_writes w' = run_start_writes w /\
  run_end_writes w' = run_end_writes w + (if is_slave cfg then 0 else 1).
Proof.
  unfold exit, log_stop_test_run, execute, server_runs, run_start_writes, run_end_writes, written.
  unfold_M. destruct w as [n c k cs l h b hk hs]. simpl.
  destruct (is_slave cfg); simpl.
  - destruct b as [[]|]; simpl; repeat split; lia.
  - destruct k; destruct b as [[]|]; simpl;
      repeat (match goal with
              | |- context [pg_fault cfg ?n] => destruct (pg_fault cfg n); simpl
              | |- context [report_line cfg r ?t] => destruct (report_line cfg r t); simpl
              end);
      rewrite ?filter_app, ?omap_app, ?length_app; simpl; rewrite ?app_nil_r;
      repeat split; try reflexivity; try lia.
Qed.

(** C7: the line a coordinator logs at shutdown is the base URL followed
    by [&var-testplan=], the testplan, [&from=] and [&to=], where [from] is
    [int(T0 * 1000)] for the timestamp [T0] of the run id and [to] is
    [int((T1 + 1) * 1000)] for the end time [T1], the same end time the
    run-end update carries.  It is the only line the call logs at info
    level, and it is logged whether or not the update succeeds. *)
Theorem report_line_window (r : Reporter) (w : World) (from_ms to_ms : Z) :
  is_slave cfg = false ->
  py_int (timestamp (_run_id r) * 1000)%float = inr from_ms ->
  py_int ((timestamp (now cfg (ticks w)) + 1) * 1000)%float = inr to_ms ->
  let w' := (exit cfg r w).1 in
  let line := "Report: " +:+ GRAFANA_URL cfg +:+ "&var-testplan=" +:+ _testplan r
              +:+ "&from=" +:+ py_str_int from_ms
              +:+ "&to=" +:+ py_str_int to_ms +:+ newline in
  last (log w') = Some (LogInfo line) /\
  filter is_info (log w') = filter is_info (log w) ++ [LogInfo line] /\
  exists o,
    calls w' !! length (calls w)
      = Some (UPDATE_testrun (now cfg (ticks w)) (_run_id r), o).
Proof.
  intros Hslave Hfrom Hto. simpl.
  assert (Hline : report_line cfg r (now cfg (ticks w)) =
                  inr ("Report: " +:+ GRAFANA_URL cfg +:+ "&var-testplan=" +:+ _testplan r
                       +:+ "&from=" +:+ py_str_int from_ms
                       +:+ "&to=" +:+ py_str_int to_ms +:+ newline)).
  { unfold report_line. rewrite Hfrom, Hto. reflexivity. }
  clear Hfrom Hto. revert Hline.
  unfold exit, log_stop_test_run, execute, server_runs. unfold_M.
  destruct w as [n c k cs l h b hk hs]. simpl.
  rewrite Hslave. simpl. intros Hline.
  destruct k; destruct b as [[]|]; simpl;
    repeat (match goal with
            | |- context [pg_fault cfg ?n] => destruct (pg_fault cfg n); simpl
            end);
    rewrite Hline; simpl;
    rewrite ?last_snoc, ?filter_app; simpl; rewrite ?app_nil_r;
    (split; [reflexivity|]); (split; [try reflexivity|]);
    try (eexists; rewrite <- ?app_assoc; apply list_lookup_middle; reflexivity).
  all: rewrite <- ?app_assoc; simpl.
  all: try (rewrite filter_app; simpl; reflexivity).
Qed.

(** C4, as the code has it: after an [exit] that returned, a second [exit]
    has nothing run by the server and leaves cursor and connection closed.
    On a follower it changes nothing else and returns.  On a coordinator it
    is not without effect: it sends the run-end update again, the closed
    cursor refuses it, the refusal is logged as a failed update, and the
    report line is logged again; it returns normally when that line can be
    formatted. *)
Theorem second_exit (r : Reporter) (w w1 : World) :
  exit cfg r w = (w1, inr tt) ->
  let w2 := (exit cfg r w1).1 in
  committed w2 = committed w1 /\
  cur w2 = Closed /\ conn w2 = Closed /\ cur w1 = Closed /\ conn w1 = Closed /\
  heap w2 = heap w1 /\ hooks w2 = hooks w1 /\ background w2 = background w1 /\
  (is_slave cfg = true ->
   (exit cfg r w1).2 = inr tt /\ calls w2 = calls w1 /\ log w2 = log w1) /\
  (is_slave cfg = false ->
   forall line,
     report_line cfg r (now cfg (ticks w1)) = inr line ->
     (exit cfg r w1).2 = inr tt /\
     calls w2 = calls w1 ++ [(UPDATE_testrun (now cfg (ticks w1)) (_run_id r), Refused)] /\
     log w2 = log w1 ++
       [LogError ("Failed to update testrun record (or events) with end time to Postgresql timescale database: "
                  +:+ closed_cursor_repr);
        LogInfo line]).
Proof.
  intros Hfirst.
  assert (Hclosed : cur w1 = Closed /\ conn w1 = Closed /\ in_flight w1 = false).
  { revert Hfirst. unfold exit, log_stop_test_run, execute, server_runs. unfold_M.
    destruct w as [n c k cs l h b hk hs]. simpl.
    destruct (is_slave cfg); simpl.
    - destruct b as [[]|]; simpl; intros [= <-]; repeat split; reflexivity.
    - destruct k; destruct b as [[]|]; simpl;
        repeat (match goal with
                | |- context [pg_fault cfg ?n] => destruct (pg_fault cfg n); simpl
                | |- context [report_line cfg r ?t] => destruct (report_line cfg r t); simpl
                end);
        intros [= <-]; repeat split; reflexivity. }
  destruct Hclosed as (Hcur & Hconn & Hidle).
  unfold exit, log_stop_test_run, execute, server_runs, committed. unfold_M.
  destruct w1 as [n c k cs l h b hk hs]. simpl in *. subst k c.
  assert (Hb : match b with Some (Writing _) => False | _ => True end)
    by (destruct b as [[]|]; [exact I | discriminate | exact I | exact I]).
  clear Hidle.
  destruct (is_slave cfg); destruct b as [[]|]; try contradiction; simpl.
  1-3: repeat split; try reflexivity; discriminate.
  all: destruct (report_line cfg r (now cfg n)) as [e|line'] eqn:Hline; simpl;
    rewrite ?omap_app; simpl; rewrite ?app_nil_r;
    repeat split; try reflexivity; try discriminate; try congruence.
  all: rewrite <- app_assoc; simpl; congruence.
Qed.

End Exit.

Lemma report_line_window_witness :
  let w := example_world standalone in
  let r := example_reporter standalone in
  last (log (exit standalone r w).1)
    = Some (LogInfo ("Report: http://grafana/d/1?orgId=1&var-testplan=plan"
                     +:+ "&from=1700000000000&to=1700000003000" +:+ newline)) /\
  filter is_info (log (exit standalone r w).1)
    = filter is_info (log w)
      ++ [LogInfo ("Report: http://grafana/d/1?orgId=1&var-testplan=plan"
                   +:+ "&from=1700000000000&to=1700000003000" +:+ newline)] /\
  exists o,
    calls (exit standalone r w).1 !! length (calls w)
      = Some (UPDATE_testrun (now standalone (ticks w)) (_run_id r), o).
Proof.
  apply (report_line_window standalone (example_reporter standalone)
           (example_world standalone) 1700000000000 1700000003000);
    vm_compute; reflexivity.
Defined.

(** [int] on floats: truncation towards zero, also of a product that is
    not a whole number of milliseconds, and the two errors. *)
Example py_int_truncates :
  py_int (1700000060.0009765625 * 1000)%float = inr 1700000060000%Z /\
  py_int ((1700000060.0009765625 + 1) * 1000)%float = inr 1700000061000%Z /\
  py_int (-0.5)%float = inr 0%Z /\
  py_int infinity = inl OverflowError /\
  py_int nan = inl ValueError.
Proof. repeat split; vm_compute; reflexivity. Qed.

(** C4 as stated fails on a coordinator: the second [exit] is not
    without effect.  It issues the run-end update a second time (the closed
    cursor refuses it) and logs two more lines, an error and the report. *)
Lemma second_exit_is_not_a_noop :
  let r := example_reporter standalone in
  let w1 := (exit standalone r (example_world standalone)).1 in
  let w2 := (exit standalone r w1).1 in
  (exit standalone r (example_world standalone)).2 = inr tt /\
  run_end_writes w1 = 1 /\ run_end_writes w2 = 2 /\
  length (log w1) = 1 /\ length (log w2) = 3 /\
  w2 <> w1.
Proof.
  repeat split; try (vm_compute; reflexivity).
  intros H. apply (f_equal (fun w => length (log w))) in H.
  vm_compute in H. discriminate.
Qed.

Lemma second_exit_witness :
  (let r := example_reporter standalone in
   let w1 := (exit standalone r (example_world standalone)).1 in
   let w2 := (exit standalone r w1).1 in
   committed w2 = committed w1 /\ cur w2 = Closed /\ conn w2 = Closed /\
   (exit standalone r w1).2 = inr tt /\
   calls w2 = calls w1
              ++ [(UPDATE_testrun (now standalone (ticks w1)) (_run_id r), Refused)]) /\
  (let r := example_reporter follower in
   let w1 := (exit follower r (example_world follower)).1 in
   let w2 := (exit follower r w1).1 in
   (exit follower r w1).2 = inr tt /\ calls w2 = calls w1 /\ log w2 = log w1).
Proof.
  assert (Hfirst : exit standalone (example_reporter standalone) (example_world standalone)
                   = ((exit standalone (example_reporter standalone)
                         (example_world standalone)).1, inr tt))
    by (vm_compute; reflexivity).
  assert (Hfirst' : exit follower (example_reporter follower) (example_world follower)
                    = ((exit follower (example_reporter follower)
                          (example_world follower)).1, inr tt))
    by (vm_compute; reflexivity).
  split; cbv zeta.
  - destruct (second_exit standalone _ _ _ Hfirst)
      as (Hc & Hcur & Hconn & _ & _ & _ & _ & _ & _ & Hcoord).
    destruct (Hcoord eq_refl _ ltac:(vm_compute; reflexivity)) as (Hret & Hcalls & _).
    repeat split; assumption.
  - destruct (second_exit follower _ _ _ Hfirst')
      as (_ & _ & _ & _ & _ & _ & _ & _ & Hfollower & _).
    apply Hfollower. reflexivity.
Defined.

(** ** What a constructed reporter starts from *)

Section Started.

Variable cfg : Config.

Lemma execute_inr (s : stmt) (w w' : World) :
  execute cfg s w = (w', inr tt) -> w' = set_calls (calls w ++ [(s, Done)]) w.
Proof.
  unfold execute, server_runs. destruct (cur w); [discriminate | | discriminate].
  destruct (in_flight w); [discriminate|].
  destruct (pg_fault cfg _); [discriminate|]. intros [= <-]. reflexivity.
Qed.

Lemma log_start_testrun_inr (r : Reporter) (w w' : World) :
  log_start_testrun cfg r w = (w', inr tt) ->
  exists nc t,
    w' = set_calls (calls w ++ [(INSERT_testrun (_run_id r) (_testplan r) (_profile_name r)
                                   nc (_rps r) (_description r), Done);
                                (INSERT_events (AsText (isoformat t))
                                   (_testplan r +:+ " started"), Done)])
           (set_ticks (S (ticks w)) w).
Proof.
  unfold log_start_testrun. intros H.
  apply bind_inr in H as (nc & w1 & Hnc & H). injection Hnc as <- Hnc.
  apply bind_inr in H as ([] & w2 & H1 & H). apply execute_inr in H1. subst w2.
  apply bind_inr in H as (t & w3 & Ht & H). injection Ht as <- <-.
  apply execute_inr in H. subst w'. exists nc, (now cfg (ticks w)).
  destruct w. simpl. rewrite <- app_assoc. reflexivity.
Qed.

Lemma init_world (testplan profile_name description : string) (w : World) (r : Reporter) :
  __init__ cfg testplan profile_name description initial_world = (w, inr r) ->
  heap w !! _samples r = Some [] /\ history w = [] /\
  background w = Some Sleeping /\ hooks w = subscriptions /\
  _finished r = false /\ written (calls w) = [] /\
  run_start_writes w = (if is_slave cfg then 0 else 1) /\ run_end_writes w = 0.
Proof.
  unfold __init__. intros H.
  apply bind_inr in H as ([] & w1 & Hconnect & H).
  apply bind_inr in H as ([] & w2 & Hcur & H).
  apply bind_inr in H as ([] & w3 & Hassert & H).
  apply bind_inr in H as (samples & w4 & Hnew & H).
  apply bind_inr in H as ([] & w5 & Hspawn & H).
  apply bind_inr in H as (run_id & w6 & Hrun & H).
  apply bind_inr in H as ([] & w7 & Hstart & H).
  apply bind_inr in H as ([] & w8 & Hhooks & H).
  injection H as <- <-. injection Hhooks as <-. simpl.
  assert (H1 : w1 = set_conn Open initial_world).
  { unfold try_except_log_raise, connect in Hconnect.
    destruct (environ cfg !! "PGHOST"); [destruct (connect_ok cfg)|];
      inversion Hconnect; reflexivity. }
  injection Hcur as <-.
  destruct (decide (testplan = "")); [discriminate|]. injection Hassert as <-.
  injection Hnew as <- <-. injection Hspawn as <-. subst w1.
  assert (H6 : w6 = set_ticks (ticks w6)
                      (set_background (Some Sleeping)
                         (set_heap (<[fresh (dom (∅ : gmap loc (list Sample))) := []]> ∅)
                            (set_cur Open (set_conn Open initial_world))))).
  { destruct (is_slave cfg || is_master cfg).
    - apply bind_inr in Hrun as (text & w' & Htext & Hparse).
      unfold environ_get in Htext. destruct (environ cfg !! "LOCUST_RUN_ID"); [|discriminate].
      injection Htext as <- _. unfold parser_parse in Hparse.
      destruct (parse cfg text); [|discriminate]. injection Hparse as <- _. reflexivity.
    - injection Hrun as <- _. reflexivity. }
  unfold run_start_writes, run_end_writes.
  destruct (is_slave cfg); simpl in Hstart.
  - injection Hstart as <-. rewrite H6. simpl.
    rewrite lookup_insert_eq. repeat split; reflexivity.
  - apply log_start_testrun_inr in Hstart as (nc & t & ->). rewrite H6. simpl.
    rewrite lookup_insert_eq. repeat split; reflexivity.
Qed.

End Started.

(** ** The buffer under every schedule *)

Lemma drained_app (h1 h2 : list event) : drained (h1 ++ h2) = drained h1 ++ drained h2.
Proof. apply omap_app. Qed.

Lemma appended_app (h1 h2 : list event) : appended (h1 ++ h2) = appended h1 ++ appended h2.
Proof. apply omap_app. Qed.

Lemma written_app (c1 c2 : list (stmt * outcome)) :
  written (c1 ++ c2) = written c1 ++ written c2.
Proof. apply omap_app. Qed.

Lemma ends_in_drain (h evs h' : list event) (b : list Sample) :
  h ++ evs = h' ++ [E_drain b] -> drained evs = [] -> evs = [] /\ h = h' ++ [E_drain b].
Proof.
  intros Heq Hnone. destruct evs as [|e evs _] using rev_ind.
  - rewrite app_nil_r in Heq. split; [reflexivity | exact Heq].
  - rewrite app_assoc in Heq. apply app_inj_tail in Heq as [_ ->].
    rewrite drained_app in Hnone. simpl in Hnone.
    apply app_eq_nil in Hnone as [_ Hnone]. discriminate.
Qed.

Section Buffer.

Variable cfg : Config.

(** A step that touches neither the list objects nor the greenlet, sends no
    batch, and records only events [evs] that are neither an append nor a
    drain. *)
Lemma buffer_inv_frame (st st' : State) (evs : list event) :
  buffer_inv st ->
  _samples (self st') = _samples (self st) ->
  heap (world st') = heap (world st) ->
  background (world st') = background (world st) ->
  written (calls (world st')) = written (calls (world st)) ->
  history (world st') = history (world st) ++ evs ->
  drained evs = [] -> appended evs = [] ->
  buffer_inv st'.
Proof.
  unfold buffer_inv, buffer, deref.
  intros (Hsome & Hcons & Hbg & Hlast) Hs Hh Hb Hw Hhist Hd Ha.
  rewrite Hs, Hh, Hb, Hw, Hhist, drained_app, appended_app, Hd, Ha, !app_nil_r.
  repeat split; try assumption.
  intros h' b Heq. apply ends_in_drain in Heq as [_ Heq]; [|exact Hd]. eauto.
Qed.

Lemma write_samples_to_db_effect (l : loc) (w : World) :
  exists o errs,
    write_samples_to_db cfg l w =
      (set_log (log w ++ errs) (set_calls (calls w ++ [(INSERT_request (deref l w), o)]) w),
       inr tt) /\
    (o = Done /\ errs = [] \/
     exists r, o <> Done /\ errs =
       [LogError ("Failed to write samples to Postgresql timescale database: " +:+ r)]).
Proof.
  unfold write_samples_to_db, executemany, server_runs. unfold_M.
  destruct w as [n c k cs lg h b hk hs]. simpl.
  destruct k; simpl; [| destruct (pg_fault cfg (length cs)) as [r|] |]; simpl.
  - exists Refused, [LogError ("Failed to write samples to Postgresql timescale database: "
                          +:+ closed_cursor_repr)].
    split; [reflexivity|]. right. eexists. split; [discriminate | reflexivity].
  - exists (Failed r), [LogError ("Failed to write samples to Postgresql timescale database: "
                             +:+ r)].
    split; [reflexivity|]. right. eexists. split; [discriminate | reflexivity].
  - exists Done, []. rewrite app_nil_r. split; [reflexivity|]. left. split; reflexivity.
  - exists Refused, [LogError ("Failed to write samples to Postgresql timescale database: "
                          +:+ closed_cursor_repr)].
    split; [reflexivity|]. right. eexists. split; [discriminate | reflexivity].
Qed.

Lemma buffer_inv_append (st : State) (current : option Z) (request_type name : string)
    (response_time : float) (response_length success : Z) (exception : pyobj) :
  buffer_inv st ->
  buffer_inv (with_world st
                (_log_request cfg (self st) current request_type name response_time
                   response_length success exception (world st)).1).
Proof.
  rewrite log_request_effect. simpl.
  set (s := make_sample _ _ _ _ _ _ _ _ _).
  unfold buffer_inv, buffer, deref. simpl.
  intros ([buf Hbuf] & Hcons & Hbg & Hlast).
  rewrite lookup_alter_eq, Hbuf, drained_app, appended_app in *. simpl in *.
  rewrite !app_nil_r. split; [eauto|]. split; [|split].
  - rewrite app_assoc, Hcons. reflexivity.
  - destruct (background (world st)) as [[| l |]|]; try assumption.
    destruct Hbg as (Hne & b & Hb & Hd). split; [exact Hne|].
    exists b. rewrite lookup_alter_ne by congruence. split; assumption.
  - intros h' b Heq. apply app_inj_tail in Heq as [_ Heq]. discriminate.
Qed.

Lemma buffer_inv_run (st : State) : buffer_inv st -> buffer_inv (_run cfg st).
Proof.
  unfold _run. intros Hinv.
  destruct (background (world st)) as [[| l |]|] eqn:Hbg; try exact Hinv.
  - destruct Hinv as ([buf Hbuf] & Hcons & Hd & Hlast). rewrite Hbg in Hd.
    unfold buffer, deref in *. rewrite Hbuf in *. simpl in *.
    destruct buf as [|x buf].
    + destruct (_finished (self st)).
      * unfold buffer_inv, buffer, deref. simpl.
        rewrite Hbuf, !drained_app, !appended_app. simpl. rewrite !app_nil_r.
        rewrite app_nil_r in Hcons. repeat split; eauto.
      * unfold buffer_inv, buffer, deref. simpl.
        rewrite Hbuf, !drained_app, !appended_app. simpl. rewrite !app_nil_r.
        rewrite app_nil_r in Hcons. repeat split; eauto.
    + pose proof (is_fresh (dom (heap (world st)))) as Hfresh.
      assert (Hne : _samples (self st) <> fresh (dom (heap (world st)))).
      { intros Heq. apply Hfresh. rewrite <- Heq. apply elem_of_dom. eauto. }
      unfold buffer_inv, buffer, deref. simpl.
      rewrite lookup_insert_eq, lookup_insert_ne by congruence.
      rewrite Hbuf, !drained_app, !appended_app. simpl. rewrite !app_nil_r.
      split; [eauto|]. split; [|split; [split|]].
      * rewrite concat_app. simpl. rewrite app_nil_r. exact Hcons.
      * exact Hne.
      * exists (x :: buf). rewrite Hd. split; reflexivity.
      * reflexivity.
  - destruct (write_samples_to_db_effect l (world st)) as (o & errs & -> & _).
    destruct Hinv as (Hsome & Hcons & Hd & Hlast). rewrite Hbg in Hd.
    destruct Hd as (Hne & b & Hb & Hd).
    unfold buffer_inv, buffer, deref in *. simpl.
    rewrite written_app. simpl. unfold deref. rewrite Hb. simpl.
    repeat split; assumption.
Qed.

(** Every drained batch has been handed to the driver, in order, except
    the one the background greenlet is writing. *)
Lemma drained_are_written (st : State) :
  buffer_inv st ->
  exists in_flight,
    drained (history (world st)) = written (calls (world st)) ++ in_flight /\
    length in_flight <= 1.
Proof.
  intros (_ & _ & Hbg & _).
  destruct (background (world st)) as [[| l |]|].
  - exists []. rewrite app_nil_r. split; [exact Hbg | simpl; lia].
  - destruct Hbg as (_ & b & _ & Hd). exists [b]. split; [exact Hd | simpl; lia].
  - exists []. rewrite app_nil_r. split; [exact Hbg | simpl; lia].
  - exists []. rewrite app_nil_r. split; [exact Hbg | simpl; lia].
Qed.

Lemma buffer_inv_step (a : action) (st : State) :
  buffer_inv st -> buffer_inv (step cfg a st).
Proof.
  intros Hinv. unfold step.
  destruct (main st) eqn:Hmain, a;
    try exact Hinv;
    try (apply buffer_inv_run; exact Hinv);
    try (unfold request_success, request_failure;
         destruct (listening _ _ st); [apply buffer_inv_append|]; exact Hinv).
  all: try (destruct (listening _ _ st); [|exact Hinv];
            apply (buffer_inv_frame st _ [E_quitting]); try reflexivity; exact Hinv).
  all: try (destruct (bool_decide _); [|exact Hinv]).
  all: try (unfold process_exit; destruct (bool_decide _);
            [|apply (buffer_inv_frame st _ []); try reflexivity; try exact Hinv;
              simpl; rewrite app_nil_r; reflexivity]).
  all: destruct (exit_frame cfg (self st) (world st)) as (Hh & Hheap & _ & Hb & Hw & _);
    apply (buffer_inv_frame st _ [E_exit]); try reflexivity; assumption.
Qed.

Lemma buffer_inv_run_schedule (schedule : list action) (st : State) :
  buffer_inv st -> buffer_inv (run cfg schedule st).
Proof.
  revert st. induction schedule as [|a schedule IH]; intros st Hinv; [exact Hinv|].
  simpl. apply IH, buffer_inv_step, Hinv.
Qed.

Lemma buffer_inv_started (testplan profile_name description : string)
    (w : World) (r : Reporter) :
  __init__ cfg testplan profile_name description initial_world = (w, inr r) ->
  buffer_inv (started r w).
Proof.
  intros Hinit. apply init_world in Hinit as (Hheap & Hhist & Hbg & _ & _ & Hw & _).
  unfold buffer_inv, buffer, deref. simpl. rewrite Hheap, Hhist, Hbg, Hw. simpl.
  repeat split; eauto.
Qed.

End Buffer.

(** ** The life of a run under every schedule *)

Lemma exits_app (h1 h2 : list event) : exits (h1 ++ h2) = exits h1 + exits h2.
Proof. unfold exits. rewrite filter_app, length_app. reflexivity. Qed.

Lemma quits_app (h1 h2 : list event) : quits (h1 ++ h2) = quits h1 + quits h2.
Proof. unfold quits. rewrite filter_app, length_app. reflexivity. Qed.

Lemma exits_zero (h : list event) : exits h = 0 <-> E_exit ∉ h.
Proof.
  unfold exits. induction h as [|e h IH].
  - split; [intros _; apply not_elem_of_nil | reflexivity].
  - rewrite not_elem_of_cons, filter_cons.
    destruct e; simpl; rewrite ?IH; intuition (try discriminate; try congruence).
Qed.

Lemma quits_zero (h : list event) : quits h = 0 <-> E_quitting ∉ h.
Proof.
  unfold quits. induction h as [|e h IH].
  - split; [intros _; apply not_elem_of_nil | reflexivity].
  - rewrite not_elem_of_cons, filter_cons.
    destruct e; simpl; rewrite ?IH; intuition (try discriminate; try congruence).
Qed.

(** The first [quitting] of a history that has one. *)
Lemma first_quitting (h : list event) :
  1 <= quits h -> exists a b, h = a ++ E_quitting :: b /\ E_quitting ∉ a.
Proof.
  unfold quits. induction h as [|e h IH]; simpl; [lia|].
  intros Hq.
  assert (He : e = E_quitting \/ is_quitting e = false)
    by (destruct e; auto).
  destruct He as [->|He].
  - exists [], h. split; [reflexivity | apply not_elem_of_nil].
  - rewrite filter_cons in Hq.
    destruct (decide (is_quitting e)) as [Hyes|_].
    + rewrite He in Hyes. contradiction.
    + destruct (IH Hq) as (a & b & -> & Hna). exists (e :: a), b.
      split; [reflexivity|]. rewrite not_elem_of_cons. split; [|exact Hna].
      intros <-. discriminate.
Qed.

(** Where an element sits in a list cut in two, when one part lacks it. *)
Lemma split_before {A} (h evs pre post : list A) (x : A) :
  h ++ evs = pre ++ x :: post -> x ∉ evs ->
  exists post1, h = pre ++ x :: post1 /\ post = post1 ++ evs.
Proof.
  intros Heq Hx. apply app_eq_inv in Heq as [(k & -> & Hk)|(k & -> & Hk)].
  - destruct k as [|y k].
    + simpl in Hk. exfalso. apply Hx. rewrite <- Hk. constructor.
    + injection Hk as <- ->. exists k. split; reflexivity.
  - exfalso. apply Hx. rewrite Hk. apply elem_of_app. right. constructor.
Qed.

Lemma split_past {A} (p c l1 l2 : list A) (x : A) :
  p ++ c = l1 ++ x :: l2 -> x ∉ p ->
  exists c1, l1 = p ++ c1 /\ c = c1 ++ x :: l2.
Proof.
  intros Heq Hx. apply app_eq_inv in Heq as [(k & -> & Hk)|(k & -> & Hk)].
  - destruct k as [|y k].
    + exists []. rewrite !app_nil_r. split; [reflexivity | symmetry; exact Hk].
    + injection Hk as <- ->. exfalso. apply Hx. apply elem_of_app. right. constructor.
  - exists k. split; [reflexivity | exact Hk].
Qed.

Lemma final_pass_guards (h : list event) : final_pass h -> exit_guarded h.
Proof.
  intros (a & b & c & -> & Hna & Hnx & Hnr & Hall & Hc) pre post Heq Hq.
  assert (Heq' : (a ++ E_quitting :: b ++ [E_idle; E_return]) ++ c = pre ++ E_exit :: post).
  { rewrite <- Heq, <- !app_assoc. simpl. rewrite <- !app_assoc. reflexivity. }
  apply split_past in Heq' as (c1 & -> & ->).
  2:{ rewrite app_comm_cons, app_assoc, not_elem_of_app. split; [exact Hnx|].
      intros H. repeat (apply elem_of_cons in H as [H|H]; [discriminate|]). inversion H. }
  split.
  - exists a, b, c1. split.
    { rewrite <- !app_assoc. simpl. rewrite <- !app_assoc. reflexivity. }
    split; [exact Hna|]. split; [exact Hall|].
    replace (a ++ E_quitting :: b ++ E_idle :: E_return :: c1 ++ E_exit :: post)
      with ((a ++ E_quitting :: b) ++ [E_idle; E_return] ++ (c1 ++ E_exit :: post))
      by (rewrite <- app_assoc; reflexivity).
    rewrite (drained_app (a ++ E_quitting :: b)), (drained_app [E_idle; E_return]), Hc.
    simpl. rewrite app_nil_r. reflexivity.
  - intros a' b' Hpre Hr.
    assert (Hcut : (a ++ E_quitting :: b ++ [E_idle]) ++ E_return :: c1
                   = a' ++ E_quitting :: b').
    { rewrite <- Hpre, <- !app_assoc. simpl. rewrite <- !app_assoc. reflexivity. }
    symmetry in Hcut. apply app_eq_inv in Hcut as [(k & Ha' & Hk)|(k & Hk & Hb')].
    + destruct k as [|y k]; [discriminate|]. injection Hk as <- _.
      exfalso. apply Hr. rewrite Ha'. apply elem_of_app. right. constructor.
    + destruct k as [|y k]; [discriminate|]. injection Hb' as <- ->.
      destruct k as [|y k _] using rev_ind.
      * exfalso. clear -Hk. rewrite app_comm_cons, app_assoc in Hk.
        apply app_inj_tail in Hk as [_ Hk]. discriminate.
      * exists k, c1.
        rewrite (app_comm_cons b), (app_assoc a), app_comm_cons, (app_assoc a') in Hk.
        apply app_inj_tail in Hk as [_ <-].
        rewrite <- app_assoc. reflexivity.
Qed.

Section Life.

Variable cfg : Config.

(** A step that enters no [exit], keeps the greenlet alive or dead as it
    was, and records events [evs]. *)
Lemma shape_inv_frame (st st' : State) (evs : list event) :
  shape_inv st ->
  (main st = Exited -> main st' = Exited) ->
  history (world st') = history (world st) ++ evs ->
  E_exit ∉ evs ->
  (background (world st') = Some Dead <-> background (world st) = Some Dead) ->
  (background (world st) = Some Dead -> drained evs = []) ->
  (background (world st) <> Some Dead -> E_return ∉ evs) ->
  shape_inv st'.
Proof.
  unfold shape_inv. intros (Hzero & Halive & Hdead) Hmain Hhist Hx Hbg Hd Hr.
  rewrite Hhist. split; [|split].
  - intros Hm Hb. rewrite exits_app.
    rewrite Hzero; [| intros H; apply Hm, Hmain, H | rewrite <- Hbg; exact Hb].
    apply exits_zero in Hx. rewrite Hx. reflexivity.
  - intros Hb. rewrite Hbg in Hb. destruct (Halive Hb) as [Hnr Hno]. split.
    + rewrite not_elem_of_app. split; [exact Hnr | apply Hr, Hb].
    + intros pre post Heq. apply split_before in Heq as (post1 & Heq & _); [|exact Hx].
      apply (Hno pre post1 Heq).
  - intros Hb. rewrite Hbg in Hb.
    destruct (Hdead Hb) as (a & b & c & -> & Hna & Hnx & Hnr & Hall & Hc).
    exists a, b, (c ++ evs). split.
    { rewrite <- !app_assoc. simpl. rewrite <- !app_assoc. reflexivity. }
    repeat (split; [assumption|]).
    rewrite drained_app, Hc, (Hd Hb). reflexivity.
Qed.

(** A step of the background greenlet or of a listener: it sends no run
    record, keeps the hooks and [_finished], and records events [evs]
    among which there is neither a [quitting] nor an [exit]. *)
Lemma life_inv_frame (st st' : State) (evs : list event) :
  life_inv cfg st ->
  main st' = main st ->
  _finished (self st') = _finished (self st) ->
  hooks (world st') = hooks (world st) ->
  run_start_writes (world st') = run_start_writes (world st) ->
  run_end_writes (world st') = run_end_writes (world st) ->
  history (world st') = history (world st) ++ evs ->
  E_quitting ∉ evs -> E_exit ∉ evs ->
  (background (world st') = Some Dead <-> background (world st) = Some Dead) ->
  (background (world st) = Some Dead -> drained evs = []) ->
  (background (world st) <> Some Dead -> E_return ∉ evs) ->
  life_inv cfg st'.
Proof.
  unfold life_inv.
  intros (Hs & He & Hm & Hf & Hshape) Hmain Hfin Hhooks Hrs Hre Hhist Hq Hx Hbg Hd Hr.
  split; [rewrite Hrs; exact Hs|].
  assert (Hq0 : quits evs = 0) by (apply quits_zero; exact Hq).
  assert (Hx0 : exits evs = 0) by (apply exits_zero; exact Hx).
  rewrite Hmain, Hfin, Hhooks, Hre, Hhist, quits_app, exits_app, Hq0, Hx0, !Nat.add_0_r.
  split; [exact He|]. split; [|split; [exact Hf|]].
  - destruct (main st); try exact Hm.
    + destruct Hm as (? & ? & ? & ? & Hb). repeat split; try assumption.
      rewrite Hbg. exact Hb.
    + destruct Hm as (? & ? & ? & Hb). repeat split; try assumption.
      rewrite Hbg. exact Hb.
  - apply (shape_inv_frame st st' evs); try assumption.
    rewrite Hmain. auto.
Qed.

Lemma life_inv_run (st : State) :
  buffer_inv st -> main st <> Exited -> life_inv cfg st -> life_inv cfg (_run cfg st).
Proof.
  unfold _run. intros Hbuf Hlive Hinv.
  destruct (background (world st)) as [[| l |]|] eqn:Hbg; try exact Hinv.
  - destruct (deref (_samples (self st)) (world st)) as [|x buf] eqn:Hempty.
    + destruct (_finished (self st)) eqn:Hfin.
      * (* the final pass *)
        destruct Hinv as (Hs & He & Hm & Hf & Hzero & Halive & _).
        rewrite Hbg in Hzero, Halive.
        assert (Hx0 : exits (history (world st)) = 0) by (apply Hzero; [exact Hlive | discriminate]).
        destruct Halive as [Hnr _]; [discriminate|].
        destruct (first_quitting _ (Hf Hfin)) as (a & b & Hh & Hna).
        destruct Hbuf as (_ & Hcons & _). unfold buffer in Hcons.
        rewrite Hempty, app_nil_r in Hcons.
        unfold life_inv, shape_inv. simpl.
        rewrite <- app_assoc. simpl.
        rewrite quits_app, exits_app. change (quits [E_idle; E_return]) with 0.
        change (exits [E_idle; E_return]) with 0. rewrite !Nat.add_0_r.
        split; [exact Hs|]. split; [exact He|]. split; [|split; [exact Hf|]].
        -- destruct (main st); try exact Hm.
           ++ destruct Hm as (_ & _ & _ & Hm & _). congruence.
           ++ destruct Hm as (? & ? & ? & _). repeat split; assumption.
        -- split; [intros _ H; contradiction|]. split; [intros H; contradiction|].
           intros _. exists a, b, []. rewrite <- Hh.
           split; [rewrite Hh, <- app_assoc; reflexivity|].
           split; [exact Hna|]. split; [apply exits_zero, Hx0|].
           split; [exact Hnr|]. split; [exact Hcons | reflexivity].
      * apply (life_inv_frame st _ [E_idle]); try reflexivity; try exact Hinv.
        -- intros H. repeat (apply elem_of_cons in H as [H|H]; [discriminate|]). inversion H.
        -- intros H. repeat (apply elem_of_cons in H as [H|H]; [discriminate|]). inversion H.
        -- simpl. rewrite Hbg. split; discriminate.
        -- intros _ H. repeat (apply elem_of_cons in H as [H|H]; [discriminate|]). inversion H.
    + apply (life_inv_frame st _ [E_drain (x :: buf)]); try reflexivity; try exact Hinv.
      * intros H. repeat (apply elem_of_cons in H as [H|H]; [discriminate|]). inversion H.
      * intros H. repeat (apply elem_of_cons in H as [H|H]; [discriminate|]). inversion H.
      * simpl. rewrite Hbg. split; discriminate.
      * rewrite Hbg. discriminate.
      * intros _ H. repeat (apply elem_of_cons in H as [H|H]; [discriminate|]). inversion H.
  - destruct (write_samples_to_db_effect cfg l (world st)) as (o & errs & -> & _).
    apply (life_inv_frame st _ []); try reflexivity; try exact Hinv.
    + unfold run_start_writes. simpl. rewrite filter_app. simpl. rewrite app_nil_r. reflexivity.
    + unfold run_end_writes. simpl. rewrite filter_app. simpl. rewrite app_nil_r. reflexivity.
    + simpl. rewrite app_nil_r. reflexivity.
    + apply not_elem_of_nil.
    + apply not_elem_of_nil.
    + simpl. rewrite Hbg. split; discriminate.
    + intros _. apply not_elem_of_nil.
Qed.

Lemma life_inv_append (st : State) (current : option Z) (request_type name : string)
    (response_time : float) (response_length success : Z) (exception : pyobj) :
  life_inv cfg st ->
  life_inv cfg (with_world st
              (_log_request cfg (self st) current request_type name response_time
                 response_length success exception (world st)).1).
Proof.
  rewrite log_request_effect. simpl. intros Hinv.
  eapply (life_inv_frame st _ [E_append _]); try reflexivity; try exact Hinv.
  - intros H. repeat (apply elem_of_cons in H as [H|H]; [discriminate|]). inversion H.
  - intros H. repeat (apply elem_of_cons in H as [H|H]; [discriminate|]). inversion H.
  - intros _ H. repeat (apply elem_of_cons in H as [H|H]; [discriminate|]). inversion H.
Qed.

(** [quitting] up to its [join]. *)
Lemma life_inv_quitting_enter (st : State) :
  main st <> Exited -> life_inv cfg st -> life_inv cfg (quitting_enter st).
Proof.
  intros Hlive (Hs & He & Hm & Hf & Hshape).
  unfold life_inv, quitting_enter. simpl.
  rewrite quits_app, exits_app. change (quits [E_quitting]) with 1.
  change (exits [E_quitting]) with 0. rewrite Nat.add_0_r.
  split; [exact Hs|]. split; [exact He|].
  assert (Hhk : (atexit, m_exit) ∉ filter (fun h : bus * method => h.1 <> atexit)
                                     (hooks (world st))).
  { intros Hin. apply list_elem_of_filter in Hin as [Hin _]. apply Hin. reflexivity. }
  split; [|split; [lia|]].
  - destruct (main st) as [|waiting| |]; simpl.
    + destruct Hm as (Hq & Hx & _). split; [lia | exact Hhk].
    + destruct Hm as (Hq & _). split; [lia | exact Hhk].
    + destruct Hm as (Hq & _). split; [lia | exact Hhk].
    + contradiction.
  - apply (shape_inv_frame st _ [E_quitting]); try reflexivity; try exact Hshape.
    + intros H. contradiction.
    + intros H. repeat (apply elem_of_cons in H as [H|H]; [discriminate|]). inversion H.
    + intros _ H. repeat (apply elem_of_cons in H as [H|H]; [discriminate|]). inversion H.
Qed.

(** [exit], entered from [quitting] once its [join] has returned, or from
    the interpreter while the exit function is registered. *)
Lemma shape_inv_exit (st : State) (p : phase) :
  shape_inv st ->
  (background (world st) <> Some Dead -> p = Exited /\ E_quitting ∉ history (world st)) ->
  shape_inv {| self := self st; world := (exit cfg (self st) (world st)).1; main := p |}.
Proof.
  intros (Hzero & Halive & Hdead) Hp.
  destruct (exit_frame cfg (self st) (world st)) as (Hh & _ & _ & Hb & _).
  unfold shape_inv. simpl. rewrite Hh, Hb. split; [|split].
  - intros Hne Hbg. destruct (Hp Hbg) as [-> _]. contradiction.
  - intros Hbg. destruct (Hp Hbg) as [_ Hnq]. destruct (Halive Hbg) as [Hnr _]. split.
    + rewrite not_elem_of_app. split; [exact Hnr|].
      intros H. repeat (apply elem_of_cons in H as [H|H]; [discriminate|]). inversion H.
    + intros pre post Heq Hin. apply Hnq.
      apply app_eq_inv in Heq as [(k & -> & _)|(k & -> & Hk)].
      * apply elem_of_app. left. exact Hin.
      * destruct k as [|y k]; [rewrite app_nil_r in Hin; exact Hin|].
        injection Hk as _ Hk. destruct k; discriminate.
  - intros Hbg. destruct (Hdead Hbg) as (a & b & c & -> & Hna & Hnx & Hnr & Hall & Hc).
    exists a, b, (c ++ [E_exit]). split.
    { rewrite <- !app_assoc. simpl. rewrite <- !app_assoc. reflexivity. }
    repeat (split; [assumption|]).
    rewrite drained_app, Hc. reflexivity.
Qed.

Lemma life_inv_step (a : action) (st : State) :
  buffer_inv st -> life_inv cfg st -> life_inv cfg (step cfg a st).
Proof.
  intros Hbuf Hinv. unfold step.
  destruct (decide (main st = Exited)) as [Hex|Hlive].
  { rewrite Hex. destruct a; exact Hinv. }
  assert (Hrun : life_inv cfg (_run cfg st)) by (apply life_inv_run; assumption).
  assert (Hquit : life_inv cfg (if listening events_quitting m_quitting st
                                then quitting_enter st else st)).
  { destruct (listening _ _ st); [apply life_inv_quitting_enter; assumption | exact Hinv]. }
  assert (Hexit : life_inv cfg (process_exit cfg st)).
  { destruct Hinv as (Hs & He & Hm & Hf & Hshape).
    unfold process_exit.
    destruct (bool_decide ((atexit, m_exit) ∈ hooks (world st))) eqn:Hhook.
    - apply bool_decide_eq_true_1 in Hhook.
      destruct (main st) as [|waiting| |] eqn:Hmain.
      + destruct Hm as (Hq & Hx & _ & Hfin & Hbg).
        destruct (exit_frame cfg (self st) (world st)) as (Hh & _ & _ & _ & _ & Hrs & Hre).
        unfold life_inv. simpl.
        rewrite Hrs, Hre, Hh, Hs, He, quits_app, exits_app, Hq, Hx.
        split; [reflexivity|]. split; [destruct (is_slave cfg); reflexivity|].
        split; [left; split; reflexivity|].
        split; [intros Hfin'; congruence|].
        apply shape_inv_exit; [exact Hshape|].
        intros _. split; [reflexivity | apply quits_zero, Hq].
      + destruct Hm as (_ & Hno). contradiction.
      + destruct Hm as (_ & _ & Hno & _). contradiction.
      + contradiction.
    - apply bool_decide_eq_false_1 in Hhook.
      unfold life_inv. simpl. split; [exact Hs|]. split; [exact He|].
      split; [|split; [exact Hf|]].
      + destruct (main st) as [|waiting| |] eqn:Hmain.
        * destruct Hm as (_ & _ & Hyes & _). contradiction.
        * destruct Hm as (Hq & _). right. lia.
        * destruct Hm as (Hq & Hone & _). right. lia.
        * contradiction.
      + destruct Hshape as (_ & Halive & Hdead). split; [|split; assumption].
        intros H. contradiction. }
  destruct (main st) as [|waiting| |] eqn:Hmain, a;
    try exact Hinv; try exact Hrun; try exact Hquit; try exact Hexit;
    try (unfold request_success, request_failure;
         match goal with
         | |- context [listening ?b ?m st] => destruct (listening b m st)
         end; [apply life_inv_append|]; exact Hinv).
  (* join returns *)
  destruct (bool_decide (background (world st) = Some Dead)) eqn:Hdead; [|exact Hinv].
  apply bool_decide_eq_true_1 in Hdead.
  destruct Hinv as (Hs & He & Hm & Hf & Hshape). rewrite Hmain in Hm.
  destruct Hm as (Hq & Hhk).
  destruct (exit_frame cfg (self st) (world st)) as (Hh & _ & Hhk' & Hb & _ & Hrs & Hre).
  unfold life_inv, quitting_leave. rewrite Hmain. simpl.
  rewrite Hrs, Hre, Hh, Hhk', Hb, Hs, He, quits_app, exits_app.
  change (quits [E_exit]) with 0. change (exits [E_exit]) with 1.
  split; [reflexivity|]. split; [destruct (is_slave cfg); reflexivity|].
  split; [|split; [intros Hfin; lia|]].
  - destruct waiting as [|waiting]; repeat split; try assumption; lia.
  - pose proof (shape_inv_exit st (match waiting with
                                   | S waiting0 => Joining waiting0
                                   | 0 => Returned
                                   end) Hshape) as Hgoal.
    apply Hgoal. intros Hne. contradiction.
Qed.

Lemma life_inv_run_schedule (schedule : list action) (st : State) :
  buffer_inv st -> life_inv cfg st -> life_inv cfg (run cfg schedule st).
Proof.
  revert st. induction schedule as [|a schedule IH]; intros st Hbuf Hinv; [exact Hinv|].
  simpl. apply IH; [apply buffer_inv_step, Hbuf | apply life_inv_step; assumption].
Qed.

Lemma life_inv_started (testplan profile_name description : string)
    (w : World) (r : Reporter) :
  __init__ cfg testplan profile_name description initial_world = (w, inr r) ->
  life_inv cfg (started r w).
Proof.
  intros Hinit.
  apply init_world in Hinit as (_ & Hhist & Hbg & Hhk & Hfin & _ & Hrs & Hre).
  unfold life_inv, shape_inv. simpl. rewrite Hhist, Hbg, Hhk, Hrs, Hre, Hfin.
  split; [reflexivity|]. split; [destruct (is_slave cfg); reflexivity|].
  split; [|split; [discriminate|]].
  - repeat split; try reflexivity; [unfold subscriptions; repeat constructor | discriminate].
  - split; [reflexivity|]. split; [|discriminate].
    intros _. split; [apply not_elem_of_nil|].
    intros pre post Heq. destruct pre; discriminate.
Qed.

(** What the invariants say about the [exit]s of a history. *)
Lemma life_inv_guards (st : State) :
  life_inv cfg st -> exit_guarded (history (world st)).
Proof.
  intros (_ & _ & _ & _ & _ & Halive & Hdead).
  destruct (decide (background (world st) = Some Dead)) as [Hb|Hb].
  - apply final_pass_guards, Hdead, Hb.
  - intros pre post Heq Hq. destruct (Halive Hb) as [_ Hno].
    exfalso. apply (Hno pre post Heq Hq).
Qed.

End Life.

Section Runs.

Variable cfg : Config.

(** C1: under every schedule of appends, turns of the background greenlet
    and shutdown steps, the drained batches followed by what is still in
    the buffer are exactly the samples appended, in the order they were
    appended: none twice, none lost.  Right after a drain the buffer is
    empty and the batch is all that was appended since the drain before.
    The order of each greenlet's own samples is kept, and the batches
    handed to the driver are the drained ones, one call each, except for at
    most one still in flight. *)
Theorem drains_partition_appends (testplan profile_name description : string)
    (w : World) (r : Reporter) (schedule : list action) :
  __init__ cfg testplan profile_name description initial_world = (w, inr r) ->
  let st := run cfg schedule (started r w) in
  let h := history (world st) in
  concat (drained h) ++ buffer st = appended h /\
  (forall h' b,
      h = h' ++ [E_drain b] ->
      buffer st = [] /\ concat (drained h') ++ b = appended h /\
      concat (drained h) = appended h) /\
  (forall g,
      by_greenlet g (concat (drained h)) ++ by_greenlet g (buffer st)
      = by_greenlet g (appended h)) /\
  (exists in_flight,
      drained h = written (calls (world st)) ++ in_flight /\ length in_flight <= 1).
Proof.
  intros Hinit st h.
  pose proof (buffer_inv_run_schedule cfg schedule _ (buffer_inv_started cfg _ _ _ _ _ Hinit))
    as Hinv.
  fold st in Hinv. pose proof Hinv as (_ & Hcons & _ & Hlast). fold h in Hcons, Hlast.
  split; [exact Hcons|]. split; [|split].
  - intros h' b Hh. pose proof (Hlast h' b Hh) as Hempty.
    rewrite Hempty, app_nil_r in Hcons. split; [exact Hempty|].
    split; [|exact Hcons].
    rewrite <- Hcons, Hh, drained_app, concat_app. simpl. rewrite app_nil_r. reflexivity.
  - intros g. unfold by_greenlet. rewrite <- filter_app, Hcons. reflexivity.
  - apply drained_are_written, Hinv.
Qed.

(** C5, as the code has it: in every run, at every moment, a follower
    has sent no run-start and no run-end statement; a coordinator has sent
    exactly one run-start statement, and one run-end statement for every
    time [exit] was entered: none while the run goes on; one for each call
    of [quitting] that has returned, so exactly one once a single
    notification has been handled and two after two; exactly one when the
    interpreter shuts down and [quitting] was never notified.  Once
    [quitting] has been notified the shutdown of the interpreter sends
    nothing of its own, so a process that shuts down while the only call of
    [quitting] still waits in [join] has sent no run-end statement. *)
Theorem run_records_by_role (testplan profile_name description : string)
    (w : World) (r : Reporter) (schedule : list action) :
  __init__ cfg testplan profile_name description initial_world = (w, inr r) ->
  let st := run cfg schedule (started r w) in
  let h := history (world st) in
  (is_slave cfg = true ->
   run_start_writes (world st) = 0 /\ run_end_writes (world st) = 0) /\
  (is_slave cfg = false ->
   run_start_writes (world st) = 1 /\
   run_end_writes (world st) = exits h /\
   match main st with
   | Running => run_end_writes (world st) = 0 /\ quits h = 0
   | Joining waiting => run_end_writes (world st) + S waiting = quits h
   | Returned => run_end_writes (world st) = quits h /\ 1 <= quits h
   | Exited =>
       (quits h = 0 /\ run_end_writes (world st) = 1) \/
       (1 <= quits h /\ run_end_writes (world st) <= quits h)
   end /\
   (main st <> Running -> world (step cfg Process_exit st) = world st)).
Proof.
  intros Hinit st h.
  pose proof (life_inv_run_schedule cfg schedule _
                (buffer_inv_started cfg _ _ _ _ _ Hinit)
                (life_inv_started cfg _ _ _ _ _ Hinit))
    as (Hs & He & Hm & _).
  fold st in Hs, He, Hm. fold h in He, Hm.
  split; intros Hrole; rewrite Hrole in Hs, He.
  - split; assumption.
  - split; [exact Hs|]. split; [exact He|]. rewrite He. split.
    + destruct (main st).
      * destruct Hm as (Hq & Hx & _). split; assumption.
      * destruct Hm as (Hq & _). lia.
      * destruct Hm as (Hq & Hone & _). split; [lia | exact Hone].
      * exact Hm.
    + intros Hquit. unfold step, process_exit.
      destruct (main st); [contradiction | | | reflexivity].
      * destruct Hm as (_ & Hhook). simpl.
        rewrite bool_decide_eq_false_2 by exact Hhook. reflexivity.
      * destruct Hm as (_ & _ & Hhook & _). simpl.
        rewrite bool_decide_eq_false_2 by exact Hhook. reflexivity.
Qed.

(** C6, as the code has it: in every run, an [exit] entered after a
    [quitting] notification finds the background greenlet dead.  After the
    first notification and before that [exit], the loop head of [_run]
    found the buffer empty, every sample appended until then having been
    drained, and [_run] returned at once; the batches handed to the driver
    are the ones drained until then, and the samples appended since are
    still in the buffer.  A notification that came before [_run] returned
    has that pass after it. *)
Theorem final_pass_before_exit (testplan profile_name description : string)
    (w : World) (r : Reporter) (schedule : list action) :
  __init__ cfg testplan profile_name description initial_world = (w, inr r) ->
  let st := run cfg schedule (started r w) in
  let h := history (world st) in
  forall pre post,
    h = pre ++ E_exit :: post -> E_quitting ∈ pre ->
    background (world st) = Some Dead /\
    (exists a b c,
        pre = a ++ E_quitting :: b ++ E_idle :: E_return :: c /\
        (E_quitting ∉ a) /\
        concat (drained (a ++ E_quitting :: b)) = appended (a ++ E_quitting :: b) /\
        written (calls (world st)) = drained (a ++ E_quitting :: b) /\
        appended h = appended (a ++ E_quitting :: b) ++ buffer st) /\
    (forall a b,
        pre = a ++ E_quitting :: b -> E_return ∉ a ->
        exists b1 c, b = b1 ++ E_idle :: E_return :: c).
Proof.
  intros Hinit st h pre post Hh Hq.
  pose proof (buffer_inv_run_schedule cfg schedule _
                (buffer_inv_started cfg _ _ _ _ _ Hinit)) as Hbuf.
  pose proof (life_inv_run_schedule cfg schedule _
                (buffer_inv_started cfg _ _ _ _ _ Hinit)
                (life_inv_started cfg _ _ _ _ _ Hinit)) as Hlife.
  fold st in Hbuf, Hlife.
  assert (Hdead : background (world st) = Some Dead).
  { destruct (decide (background (world st) = Some Dead)) as [Hb|Hb]; [exact Hb|].
    destruct Hlife as (_ & _ & _ & _ & _ & Halive & _).
    destruct (Halive Hb) as [_ Hno]. exfalso. apply (Hno pre post Hh Hq). }
  split; [exact Hdead|].
  destruct (life_inv_guards cfg st Hlife pre post Hh Hq)
    as [(a & b & c & Hpre & Hna & Hall & Hd) Hlater].
  split; [|exact Hlater].
  fold h in Hd.
  destruct Hbuf as (_ & Hcons & Hw & _). rewrite Hdead in Hw. fold h in Hcons, Hw.
  exists a, b, c. split; [exact Hpre|]. split; [exact Hna|]. split; [exact Hall|].
  split; [rewrite <- Hw; exact Hd|].
  rewrite <- Hcons, Hd, Hall. reflexivity.
Qed.

(** C8: when the server fails a batch, the failure is logged, the
    background greenlet goes back to sleep instead of dying, and neither
    the buffer nor any other list object is touched, so nothing is queued
    again.  Its next turns drain whatever is in the buffer by then and hand
    exactly that to the driver.  Over a whole run every drained batch is
    handed to the driver once, failed or not. *)
Theorem failed_batch_is_dropped (st : State) (l : loc) (err : string) :
  main st <> Exited ->
  background (world st) = Some (Writing l) ->
  cur (world st) = Open ->
  pg_fault cfg (length (calls (world st))) = Some err ->
  let st1 := step cfg Resume_background st in
  calls (world st1)
    = calls (world st) ++ [(INSERT_request (deref l (world st)), Failed err)] /\
  log (world st1)
    = log (world st)
      ++ [LogError ("Failed to write samples to Postgresql timescale database: " +:+ err)] /\
  background (world st1) = Some Sleeping /\
  self st1 = self st /\ heap (world st1) = heap (world st) /\
  history (world st1) = history (world st) /\
  (forall x xs,
      buffer st1 = x :: xs ->
      let st2 := step cfg Resume_background st1 in
      let st3 := step cfg Resume_background st2 in
      background (world st2) = Some (Writing (_samples (self st1))) /\
      buffer st2 = [] /\
      history (world st2) = history (world st1) ++ [E_drain (x :: xs)] /\
      background (world st3) = Some Sleeping /\
      exists o, calls (world st3) = calls (world st1) ++ [(INSERT_request (x :: xs), o)]) /\
  (forall testplan profile_name description w r schedule,
      __init__ cfg testplan profile_name description initial_world = (w, inr r) ->
      let st' := run cfg schedule (started r w) in
      exists in_flight,
        drained (history (world st')) = written (calls (world st')) ++ in_flight /\
        length in_flight <= 1).
Proof.
  intros Hmain Hbg Hcur Hfault.
  assert (Hstep : step cfg Resume_background st =
                  {| self := self st;
                     world := set_background (Some Sleeping)
                       (set_log (log (world st) ++
                          [LogError ("Failed to write samples to Postgresql timescale database: "
                                     +:+ err)])
                          (set_calls (calls (world st) ++
                             [(INSERT_request (deref l (world st)), Failed err)]) (world st)));
                     main := main st |}).
  { unfold step, _run. rewrite Hbg. unfold write_samples_to_db, executemany, server_runs. unfold_M.
    rewrite Hcur, Hfault. destruct (main st); try contradiction; reflexivity. }
  intros st1. subst st1. rewrite Hstep. clear Hstep.
  set (st1 := {| self := self st; world := _; main := main st |}).
  do 6 (split; [reflexivity|]). split.
  - intros x xs Hbuf st2 st3. subst st3 st2.
    assert (Hheap : heap (world st) !! _samples (self st) = Some (x :: xs)).
    { unfold buffer, deref in Hbuf. subst st1. simpl in Hbuf.
      destruct (heap (world st) !! _samples (self st)) as [buf|]; [|discriminate].
      simpl in Hbuf. congruence. }
    clear Hbuf.
    pose proof (is_fresh (dom (heap (world st)))) as Hfresh.
    assert (Hne : _samples (self st) <> fresh (dom (heap (world st)))).
    { intros Heq. apply Hfresh. rewrite <- Heq. apply elem_of_dom. eauto. }
    assert (Hstep2 : step cfg Resume_background st1 =
              {| self := set_samples (fresh (dom (heap (world st)))) (self st);
                 world := set_background (Some (Writing (_samples (self st))))
                   (set_history (history (world st) ++ [E_drain (x :: xs)])
                      (set_heap (<[fresh (dom (heap (world st))) := []]> (heap (world st)))
                         (world st1)));
                 main := main st |}).
    { unfold step, _run, deref. subst st1. simpl. rewrite Hheap.
      destruct (main st); try contradiction; reflexivity. }
    rewrite Hstep2. clear Hstep2.
    set (st2 := {| self := set_samples _ _; world := _; main := main st |}).
    destruct (write_samples_to_db_effect cfg (_samples (self st)) (world st2))
      as (o & errs & Hw & _).
    assert (Hstep3 : step cfg Resume_background st2 =
              {| self := self st2;
                 world := set_background (Some Sleeping)
                            (write_samples_to_db cfg (_samples (self st)) (world st2)).1;
                 main := main st |}).
    { unfold step, _run. subst st2. simpl. simpl in Hw. rewrite Hw.
      destruct (main st); try contradiction; reflexivity. }
    rewrite Hstep3, Hw. clear Hstep3 Hw.
    split; [reflexivity|]. split.
    { unfold buffer, deref. subst st2. simpl. rewrite lookup_insert_eq. reflexivity. }
    split; [reflexivity|]. split; [reflexivity|]. exists o.
    unfold deref. subst st2 st1. simpl.
    rewrite lookup_insert_ne by congruence. rewrite Hheap. reflexivity.
  - intros testplan profile_name description w r schedule Hinit.
    apply drained_are_written, buffer_inv_run_schedule.
    apply (buffer_inv_started cfg _ _ _ _ _ Hinit).
Qed.

End Runs.

Lemma example_init (c : Config) :
  (__init__ c "plan" "" "" initial_world).2 = inr (example_reporter c) ->
  __init__ c "plan" "" "" initial_world = (example_world c, inr (example_reporter c)).
Proof.
  unfold example_world. destruct (__init__ c "plan" "" "" initial_world) as [w res].
  simpl. intros ->. reflexivity.
Qed.

Lemma drains_partition_appends_witness :
  let st := run standalone busy_schedule (example_state standalone) in
  let st' := run standalone (take 2 busy_schedule) (example_state standalone) in
  (concat (drained (history (world st))) ++ buffer st = appended (history (world st)) /\
   length (appended (history (world st))) = 3) /\
  (buffer st' = [] /\
   concat (drained (history (world st'))) = appended (history (world st'))).
Proof.
  assert (Hinit : __init__ standalone "plan" "" "" initial_world
                  = (example_world standalone, inr (example_reporter standalone)))
    by (apply example_init; vm_compute; reflexivity).
  split.
  - split; [|vm_compute; reflexivity].
    exact (proj1 (drains_partition_appends standalone _ _ _ _ _ busy_schedule Hinit)).
  - destruct (proj1 (proj2 (drains_partition_appends standalone _ _ _ _ _
                              (take 2 busy_schedule) Hinit))
                (take 1 (history (world (run standalone (take 2 busy_schedule)
                                           (example_state standalone)))))
                (appended (history (world (run standalone (take 2 busy_schedule)
                                             (example_state standalone))))))
      as (Hempty & _ & Hall).
    + vm_compute. reflexivity.
    + split; [exact Hempty | exact Hall].
Defined.

Lemma run_records_by_role_witness :
  (run_start_writes (world (run follower quit_schedule (example_state follower))) = 0 /\
   run_end_writes (world (run follower quit_schedule (example_state follower))) = 0) /\
  (run_start_writes (world (run standalone quit_schedule (example_state standalone))) = 1 /\
   run_end_writes (world (run standalone busy_schedule (example_state standalone))) = 0 /\
   run_end_writes (world (run standalone quit_schedule (example_state standalone)))
   = exits (history (world (run standalone quit_schedule (example_state standalone))))).
Proof.
  assert (Hfollower : __init__ follower "plan" "" "" initial_world
                      = (example_world follower, inr (example_reporter follower)))
    by (apply example_init; vm_compute; reflexivity).
  assert (Hstandalone : __init__ standalone "plan" "" "" initial_world
                        = (example_world standalone, inr (example_reporter standalone)))
    by (apply example_init; vm_compute; reflexivity).
  split.
  - apply (proj1 (run_records_by_role follower _ _ _ _ _ quit_schedule Hfollower)).
    reflexivity.
  - destruct (proj2 (run_records_by_role standalone _ _ _ _ _ quit_schedule Hstandalone)
                eq_refl) as (Hstart & Hend & _ & _).
    destruct (proj2 (run_records_by_role standalone _ _ _ _ _ busy_schedule Hstandalone)
                eq_refl) as (_ & _ & Hrunning & _).
    split; [exact Hstart|]. split; [|exact Hend].
    change (main (run standalone busy_schedule (started (example_reporter standalone)
                                                   (example_world standalone))))
      with Running in Hrunning.
    exact (proj1 Hrunning).
Defined.

(** C5 as stated fails on a coordinator: a second notification of
    [quitting] enters [exit] again and sends a second run-end update; and
    a process that shuts down while [quitting] waits in [join] has sent
    none, its exit function being no longer registered. *)
Lemma second_quitting_updates_again :
  let st := run standalone requit_schedule (example_state standalone) in
  let st' := run standalone abandoned_schedule (example_state standalone) in
  is_slave standalone = false /\
  main st = Returned /\ run_start_writes (world st) = 1 /\
  run_end_writes (world st) = 2 /\
  main st' = Exited /\ run_end_writes (world st') = 0.
Proof. repeat split; vm_compute; reflexivity. Qed.

Lemma final_pass_before_exit_witness :
  let st := run standalone quit_schedule (example_state standalone) in
  let h := history (world st) in
  background (world st) = Some Dead /\
  exists a b c,
    take 8 h = a ++ E_quitting :: b ++ E_idle :: E_return :: c /\
    (E_quitting ∉ a) /\
    concat (drained (a ++ E_quitting :: b)) = appended (a ++ E_quitting :: b) /\
    written (calls (world st)) = drained (a ++ E_quitting :: b) /\
    appended h = appended (a ++ E_quitting :: b) ++ buffer st.
Proof.
  assert (Hinit : __init__ standalone "plan" "" "" initial_world
                  = (example_world standalone, inr (example_reporter standalone)))
    by (apply example_init; vm_compute; reflexivity).
  destruct (final_pass_before_exit standalone _ _ _ _ _ quit_schedule Hinit
              (take 8 (history (world (run standalone quit_schedule
                                         (example_state standalone))))) [])
    as (Hdead & Hpass & _).
  - vm_compute. reflexivity.
  - vm_compute. repeat constructor.
  - split; [exact Hdead | exact Hpass].
Defined.

(** C6 as stated fails for a notification of [quitting] that comes after
    the background greenlet has returned: [join] returns at once and [exit]
    is entered with no pass of the loop in between. *)
Lemma late_quitting_skips_the_pass :
  let st := run standalone requit_schedule (example_state standalone) in
  exists pre,
    history (world st) = pre ++ [E_quitting; E_exit] /\
    (E_quitting ∈ pre) /\ (E_return ∈ pre) /\
    background (world st) = Some Dead.
Proof.
  exists (take 9 (history (world (run standalone requit_schedule
                                    (example_state standalone))))).
  split; [vm_compute; reflexivity|].
  split; [|split]; vm_compute; [repeat constructor | repeat constructor | reflexivity].
Qed.

Lemma failed_batch_is_dropped_witness :
  let st := run flaky (take 3 busy_schedule) (example_state flaky) in
  let st1 := step flaky Resume_background st in
  let st3 := step flaky Resume_background (step flaky Resume_background st1) in
  log (world st1)
    = [LogError ("Failed to write samples to Postgresql timescale database: "
                 +:+ "OperationalError('gone')")] /\
  background (world st1) = Some Sleeping /\
  heap (world st1) = heap (world st) /\
  (exists o, calls (world st3) = calls (world st1) ++ [(INSERT_request (buffer st1), o)]) /\
  exists in_flight,
    drained (history (world (run flaky busy_schedule (example_state flaky))))
    = written (calls (world (run flaky busy_schedule (example_state flaky))))
      ++ in_flight /\ length in_flight <= 1.
Proof.
  assert (Hinit : __init__ flaky "plan" "" "" initial_world
                  = (example_world flaky, inr (example_reporter flaky)))
    by (apply example_init; vm_compute; reflexivity).
  destruct (failed_batch_is_dropped flaky
              (run flaky (take 3 busy_schedule) (example_state flaky))
              0 "OperationalError('gone')")
    as (_ & Hlog & Hbg & _ & Hheap & _ & Hnext & Honce).
  - vm_compute. discriminate.
  - vm_compute. reflexivity.
  - vm_compute. reflexivity.
  - vm_compute. reflexivity.
  - cbv zeta. split; [rewrite Hlog; vm_compute; reflexivity|].
    split; [exact Hbg|]. split; [exact Hheap|]. split.
    + assert (Hbuf : exists x xs,
                 buffer (step flaky Resume_background
                           (run flaky (take 3 busy_schedule) (example_state flaky)))
                 = x :: xs)
        by (vm_compute; eexists; eexists; reflexivity).
      destruct Hbuf as (x & xs & Hbuf).
      destruct (Hnext x xs Hbuf) as (_ & _ & _ & _ & Hcalls).
      rewrite Hbuf. exact Hcalls.
    + exact (Honce _ _ _ _ _ busy_schedule Hinit).
Defined.

(** * Further properties *)

(** ** Failures of the constructor *)

Section ConstructorFailures.

Variable cfg : Config.

(** X1: when [PGHOST] is not in the environment, or the connection
    cannot be made, the constructor logs its guidance once and raises the
    error ([KeyError] or the driver's), before the testplan is even looked
    at; nothing else of the world changes. *)
Theorem connection_failure_is_logged_and_raised
    (testplan profile_name description : string) (w0 : World) :
  (environ cfg !! "PGHOST" = None ->
   __init__ cfg testplan profile_name description w0
   = (set_log (log w0 ++ [LogError connect_guidance]) w0, inl (KeyError "PGHOST"))) /\
  (forall host,
      environ cfg !! "PGHOST" = Some host -> connect_ok cfg = false ->
      __init__ cfg testplan profile_name description w0
      = (set_log (log w0 ++ [LogError connect_guidance]) w0, inl OperationalError)).
Proof.
  split.
  - intros Hhost. unfold __init__, try_except_log_raise, connect, mbind, M_bind.
    rewrite Hhost. reflexivity.
  - intros host Hhost Hno. unfold __init__, try_except_log_raise, connect, mbind, M_bind.
    rewrite Hhost, Hno. reflexivity.
Qed.

(** The constructor up to the choice of the run id. *)
Lemma init_prefix (testplan profile_name description host : string) (w0 : World)
    (k : loc -> M Reporter) :
  environ cfg !! "PGHOST" = Some host -> connect_ok cfg = true -> testplan <> "" ->
  (_ ← try_except_log_raise (connect cfg) connect_guidance;
   _ ← modify (set_cur Open);
   _ ← (if decide (testplan = "") then raise AssertionError else mret tt);
   samples ← new_list;
   _ ← modify (set_background (Some Sleeping));
   k samples) w0
  = k (fresh (dom (heap w0)))
      (set_background (Some Sleeping)
         (set_heap (<[fresh (dom (heap w0)) := []]> (heap w0))
            (set_cur Open (set_conn Open w0)))).
Proof.
  intros Hhost Hok Hne.
  unfold try_except_log_raise, connect, new_list, mbind, M_bind, modify.
  rewrite Hhost, Hok. destruct (decide (testplan = "")); [contradiction|]. reflexivity.
Qed.

(** X2: a distributed process ([--slave] or [--master]) whose
    [LOCUST_RUN_ID] is missing, or is not a date, fails in the constructor
    with [KeyError] or the parser's error.  By then the connection and the
    cursor are open and the background greenlet is spawned; no statement
    was sent, nothing was logged, and no listener and no exit function is
    registered. *)
Theorem run_id_failure_leaves_greenlet_spawned
    (testplan profile_name description host : string) (w0 : World) :
  environ cfg !! "PGHOST" = Some host -> connect_ok cfg = true -> testplan <> "" ->
  is_slave cfg || is_master cfg = true ->
  let w := (__init__ cfg testplan profile_name description w0).1 in
  (environ cfg !! "LOCUST_RUN_ID" = None ->
   (__init__ cfg testplan profile_name description w0).2 = inl (KeyError "LOCUST_RUN_ID")) /\
  (forall text,
      environ cfg !! "LOCUST_RUN_ID" = Some text -> parse cfg text = None ->
      (__init__ cfg testplan profile_name description w0).2 = inl (ParserError text)) /\
  (environ cfg !! "LOCUST_RUN_ID" = None \/
   (exists text, environ cfg !! "LOCUST_RUN_ID" = Some text /\ parse cfg text = None) ->
   conn w = Open /\ cur w = Open /\ background w = Some Sleeping /\
   hooks w = hooks w0 /\ calls w = calls w0 /\ log w = log w0).
Proof.
  intros Hhost Hok Hne Hrole. unfold __init__. fold connect_guidance.
  rewrite (init_prefix _ profile_name description host w0 _ Hhost Hok Hne).
  rewrite Hrole. unfold environ_get, parser_parse, mbind, M_bind, raise, mret, M_ret.
  split; [|split].
  - intros ->. reflexivity.
  - intros text -> ->. reflexivity.
  - intros [->|(text & -> & ->)]; repeat split.
Qed.

Lemma find_num_clients_step (nc : pyarg) (w : World) :
  find_num_clients cfg = inr nc ->
  (fun w' : World => (w', find_num_clients cfg)) w = (w, inr nc).
Proof. intros ->. reflexivity. Qed.

(** X3: on a standalone coordinator the run-start statements are sent without a
    handler: when the server fails the insert into [testrun], or the insert
    into [events] after it, the constructor raises that error.  The failed
    statement is on record, the error is not logged, and no listener and no
    exit function is registered, although the background greenlet is
    already spawned. *)
Theorem run_start_failure_aborts_construction
    (testplan profile_name description host : string) (nc : pyarg) (err : string)
    (w0 : World) :
  environ cfg !! "PGHOST" = Some host -> connect_ok cfg = true -> testplan <> "" ->
  is_slave cfg = false -> is_master cfg = false ->
  find_num_clients cfg = inr nc ->
  let w := (__init__ cfg testplan profile_name description w0).1 in
  let row := INSERT_testrun (now cfg (ticks w0)) testplan profile_name nc
               (default "0" (environ cfg !! "LOCUST_RPS")) description in
  (pg_fault cfg (length (calls w0)) = Some err ->
   (__init__ cfg testplan profile_name description w0).2 = inl (Psycopg2Error err) /\
   calls w = calls w0 ++ [(row, Failed err)] /\
   hooks w = hooks w0 /\ log w = log w0 /\ background w = Some Sleeping) /\
  (pg_fault cfg (length (calls w0)) = None ->
   pg_fault cfg (S (length (calls w0))) = Some err ->
   (__init__ cfg testplan profile_name description w0).2 = inl (Psycopg2Error err) /\
   calls w = calls w0 ++ [(row, Done);
                          (INSERT_events (AsText (isoformat (now cfg (S (ticks w0)))))
                             (testplan +:+ " started"), Failed err)] /\
   hooks w = hooks w0 /\ log w = log w0 /\ background w = Some Sleeping).
Proof.
  intros Hhost Hok Hne Hslave Hmaster Hnc. unfold __init__. fold connect_guidance.
  rewrite (init_prefix _ profile_name description host w0 _ Hhost Hok Hne).
  rewrite Hslave, Hmaster. simpl.
  unfold log_start_testrun, execute, server_runs, datetime_now, mbind, M_bind, mret, M_ret, modify.
  rewrite Hnc. destruct w0 as [n c k cs l h b hk hs]. simpl. split.
  - intros ->. simpl. repeat split.
  - intros -> . simpl. rewrite length_app. simpl.
    replace (length cs + 1) with (S (length cs)) by lia.
    intros ->. simpl. rewrite <- app_assoc. repeat split.
Qed.

Lemma log_start_testrun_done (r : Reporter) (w w' : World) :
  log_start_testrun cfg r w = (w', inr tt) ->
  exists nc,
    find_num_clients cfg = inr nc /\
    w' = set_calls (calls w ++ [(INSERT_testrun (_run_id r) (_testplan r) (_profile_name r)
                                   nc (_rps r) (_description r), Done);
                                (INSERT_events (AsText (isoformat (now cfg (ticks w))))
                                   (_testplan r +:+ " started"), Done)])
           (set_ticks (S (ticks w)) w).
Proof.
  unfold log_start_testrun, execute, server_runs, datetime_now, mbind, M_bind, mret, M_ret.
  destruct (find_num_clients cfg) as [e|nc]; [discriminate|].
  destruct w as [n c k cs l h b hk hs]. simpl.
  destruct k; simpl; try discriminate.
  destruct b as [[]|]; simpl; try discriminate.
  all: destruct (pg_fault cfg (length cs)); simpl; [discriminate|].
  all: destruct (pg_fault cfg (length (cs ++ _))); simpl; [discriminate|].
  all: intros [= <-]; exists nc; rewrite <- app_assoc; split; reflexivity.
Qed.

(** X4: a reporter that was constructed in a fresh process holds the
    arguments it was given, the host name and the rate from the
    environment (["0"] when [LOCUST_RPS] is unset); its world has the
    connection and the cursor open, an empty buffer, the background
    greenlet spawned and the four hooks registered.  A follower has sent
    nothing; a coordinator has sent exactly the insert into [testrun] with
    these values and the insert of the event [<testplan> started], both
    run by the server. *)
Theorem constructed_reporter (testplan profile_name description : string)
    (w : World) (r : Reporter) :
  __init__ cfg testplan profile_name description initial_world = (w, inr r) ->
  (_testplan r = testplan /\ _profile_name r = profile_name /\
   _description r = description /\ _hostname r = gethostname cfg /\
   _rps r = default "0" (environ cfg !! "LOCUST_RPS") /\ _finished r = false) /\
  (testplan <> "" /\ conn w = Open /\ cur w = Open /\ log w = [] /\
   hooks w = subscriptions /\ background w = Some Sleeping /\
   heap w = {[ _samples r := [] ]}) /\
  (is_slave cfg = true -> calls w = []) /\
  (is_slave cfg = false ->
   exists nc,
     find_num_clients cfg = inr nc /\
     calls w = [(INSERT_testrun (_run_id r) testplan profile_name nc
                   (default "0" (environ cfg !! "LOCUST_RPS")) description, Done);
                (INSERT_events
                   (AsText (isoformat (now cfg (if is_master cfg then 0 else 1))))
                   (testplan +:+ " started"), Done)]).
Proof.
  intros Hinit.
  assert (Hne : testplan <> "").
  { intros ->. revert Hinit. unfold __init__, try_except_log_raise, connect, mbind, M_bind.
    destruct (environ cfg !! "PGHOST"); [destruct (connect_ok cfg)|]; discriminate. }
  assert (Hconn : exists host, environ cfg !! "PGHOST" = Some host /\ connect_ok cfg = true).
  { revert Hinit. unfold __init__, try_except_log_raise, connect, mbind, M_bind.
    destruct (environ cfg !! "PGHOST") as [host|]; [|discriminate].
    destruct (connect_ok cfg); [|discriminate]. eauto. }
  destruct Hconn as (host & Hhost & Hok).
  revert Hinit. unfold __init__. fold connect_guidance.
  rewrite (init_prefix _ profile_name description host _ _ Hhost Hok Hne).
  change (fresh (dom (heap initial_world))) with (fresh (dom (∅ : gmap loc (list Sample)))).
  set (l := fresh (dom (∅ : gmap loc (list Sample)))).
  unfold is_master. destruct (is_slave cfg) eqn:Hslave; simpl.
  - unfold environ_get, parser_parse, mbind, M_bind, mret, M_ret, raise, modify.
    destruct (environ cfg !! "LOCUST_RUN_ID") as [text|]; [|discriminate].
    destruct (parse cfg text) as [d|]; [|discriminate]. simpl.
    intros [= <- <-]. simpl. repeat split; try assumption; try discriminate.
  - fold (is_master cfg). intros Hinit.
    apply bind_inr in Hinit as (run_id & w1 & Hrun & Hinit).
    apply bind_inr in Hinit as ([] & w2 & Hstart & Hinit).
    apply log_start_testrun_done in Hstart as (nc & Hnc & ->).
    injection Hinit as <- <-.
    assert (Hw1 : w1 = set_ticks (if is_master cfg then 0 else 1)
                         (set_background (Some Sleeping)
                            (set_heap (<[l := []]> ∅)
                               (set_cur Open (set_conn Open initial_world)))) /\
                  ticks w1 = (if is_master cfg then 0 else 1)).
    { destruct (is_master cfg).
      - apply bind_inr in Hrun as (text & w' & Htext & Hparse).
        unfold environ_get in Htext.
        destruct (environ cfg !! "LOCUST_RUN_ID"); [|discriminate].
        injection Htext as <- _. unfold parser_parse in Hparse.
        destruct (parse cfg text); [|discriminate]. injection Hparse as <- _.
        split; reflexivity.
      - injection Hrun as <- _. split; reflexivity. }
    destruct Hw1 as [-> Hticks]. simpl.
    repeat split; try assumption; try discriminate.
    intros _. exists nc. split; [exact Hnc | reflexivity].
Qed.

End ConstructorFailures.

(** ** Failures at the end of the run *)

Section RunEndFailures.

Variable cfg : Config.

(** X5: when the server fails the run-end update of a coordinator, the
    insert of the [finished] event is not attempted; when the update runs
    and the event insert fails, both are on record.  Either way the error
    is logged, the report line is still logged after it, cursor and
    connection are closed, and [exit] returns normally.  When a batch write
    is in flight on the connection, it is the driver that refuses the
    update: the refusal is logged in the same way, the report line is
    logged and the cursor closed, but closing the connection never
    returns. *)
Theorem run_end_failure_is_swallowed (r : Reporter) (w : World) (err line : string) :
  is_slave cfg = false -> cur w = Open ->
  report_line cfg r (now cfg (ticks w)) = inr line ->
  let end_time := now cfg (ticks w) in
  let w' := (exit cfg r w).1 in
  (in_flight w = false ->
   pg_fault cfg (length (calls w)) = Some err ->
   exit cfg r w = (w', inr tt) /\
   calls w' = calls w ++ [(UPDATE_testrun end_time (_run_id r), Failed err)] /\
   log w' = log w ++ [LogError (run_end_failure +:+ err); LogInfo line] /\
   cur w' = Closed /\ conn w' = Closed) /\
  (in_flight w = false ->
   pg_fault cfg (length (calls w)) = None ->
   pg_fault cfg (S (length (calls w))) = Some err ->
   exit cfg r w = (w', inr tt) /\
   calls w' = calls w ++ [(UPDATE_testrun end_time (_run_id r), Done);
                          (INSERT_events (AsDatetime end_time)
                             (_testplan r +:+ " finished"), Failed err)] /\
   log w' = log w ++ [LogError (run_end_failure +:+ err); LogInfo line] /\
   cur w' = Closed /\ conn w' = Closed) /\
  (in_flight w = true ->
   exit cfg r w = (w', inl Hangs) /\
   calls w' = calls w ++ [(UPDATE_testrun end_time (_run_id r), Refused)] /\
   log w' = log w ++ [LogError (run_end_failure +:+ busy_connection_repr); LogInfo line] /\
   cur w' = Closed /\ conn w' = conn w).
Proof.
  intros Hslave Hcur Hline. revert Hline.
  unfold exit, log_stop_test_run, execute, server_runs. unfold_M.
  destruct w as [n c k cs l h b hk hs]. simpl in *. subst k.
  rewrite Hslave.
  destruct b as [[]|]; simpl; intros Hline;
    (split; [|split]); try (intros Hin; discriminate Hin); intros _.
  all: try solve [intros ->; simpl; rewrite Hline; simpl; rewrite <- !app_assoc;
                  repeat split].
  all: try solve [intros ->; simpl; rewrite length_app; simpl;
                  replace (length cs + 1) with (S (length cs)) by lia;
                  intros ->; simpl; rewrite Hline; simpl; rewrite <- !app_assoc;
                  repeat split].
  rewrite Hline. simpl. rewrite <- !app_assoc. repeat split.
Qed.

End RunEndFailures.

(** ** What one step can be *)

Section Steps.

Variable cfg : Config.

Lemma step_cases (a : action) (st : State) :
  step cfg a st = st \/
  main st <> Exited /\
  ((exists current request_type name response_time response_length success exception,
       step cfg a st
       = with_world st (_log_request cfg (self st) current request_type name
                          response_time response_length success exception (world st)).1) \/
   step cfg a st = _run cfg st \/
   step cfg a st = quitting_enter st \/
   (background (world st) = Some Dead /\ step cfg a st = quitting_leave cfg st) \/
   step cfg a st = process_exit cfg st).
Proof.
  unfold step, request_success, request_failure.
  destruct (main st) eqn:Hmain, a; try (left; reflexivity);
    try (destruct (listening _ _ st); [|left; reflexivity]);
    try (destruct (bool_decide (background (world st) = Some Dead)) eqn:Hdead;
         [apply bool_decide_eq_true_1 in Hdead | left; reflexivity]);
    right; (split; [discriminate|]); eauto 12.
Qed.

Lemma run_app (s1 s2 : list action) (st : State) :
  run cfg (s1 ++ s2) st = run cfg s2 (run cfg s1 st).
Proof. unfold run. apply foldl_app. Qed.

(** ** Every sample carries the reporter's stamps *)

Lemma elem_of_concat {A} (x : A) (l : list A) (ls : list (list A)) :
  x ∈ l -> l ∈ ls -> x ∈ concat ls.
Proof.
  intros Hx Hl. induction ls as [|l' ls IH]; [inversion Hl|].
  simpl. apply elem_of_app. apply elem_of_cons in Hl as [<-|Hl]; [left | right]; auto.
Qed.

Lemma stamp_inv_frame (r : Reporter) (st st' : State) (evs : list event) :
  stamp_inv r st ->
  _run_id (self st') = _run_id (self st) ->
  _testplan (self st') = _testplan (self st) ->
  _hostname (self st') = _hostname (self st) ->
  history (world st') = history (world st) ++ evs ->
  appended evs = [] ->
  stamp_inv r st'.
Proof.
  unfold stamp_inv. intros (H1 & H2 & H3 & Hall) E1 E2 E3 Hh Ha.
  rewrite E1, E2, E3, Hh, appended_app, Ha, app_nil_r. repeat split; assumption.
Qed.

Lemma stamp_inv_step (r : Reporter) (a : action) (st : State) :
  stamp_inv r st -> stamp_inv r (step cfg a st).
Proof.
  intros Hinv.
  destruct (step_cases a st) as [->|(_ & [Happ|[->|[-> | [(_ & ->) | -> ]]]])];
    [exact Hinv| | | | |].
  - destruct Happ as (current & rt & name & t & rl & success & exc & ->).
    rewrite log_request_effect. destruct Hinv as (H1 & H2 & H3 & Hall).
    unfold stamp_inv. simpl. rewrite appended_app. simpl.
    repeat split; try assumption.
    apply Forall_app. split; [exact Hall|]. constructor; [|constructor].
    unfold stamped. simpl. repeat split; assumption.
  - unfold _run. destruct (background (world st)) as [[| l |]|]; try exact Hinv.
    + destruct (deref (_samples (self st)) (world st)) as [|x buf].
      * destruct (_finished (self st)).
        -- apply (stamp_inv_frame r st _ [E_idle; E_return]); try reflexivity; try exact Hinv.
           simpl. rewrite <- app_assoc. reflexivity.
        -- apply (stamp_inv_frame r st _ [E_idle]); try reflexivity; exact Hinv.
      * apply (stamp_inv_frame r st _ [E_drain (x :: buf)]); try reflexivity; exact Hinv.
    + destruct (write_samples_to_db_effect cfg l (world st)) as (o & errs & -> & _).
      apply (stamp_inv_frame r st _ []); try reflexivity; try exact Hinv.
      simpl. rewrite app_nil_r. reflexivity.
  - apply (stamp_inv_frame r st _ [E_quitting]); try reflexivity; exact Hinv.
  - destruct (exit_frame cfg (self st) (world st)) as (Hh & _).
    apply (stamp_inv_frame r st _ [E_exit]); try reflexivity; assumption.
  - unfold process_exit. destruct (bool_decide _).
    + destruct (exit_frame cfg (self st) (world st)) as (Hh & _).
      apply (stamp_inv_frame r st _ [E_exit]); try reflexivity; assumption.
    + apply (stamp_inv_frame r st _ []); try reflexivity; try exact Hinv.
      simpl. rewrite app_nil_r. reflexivity.
Qed.

Lemma stamp_inv_run_schedule (r : Reporter) (schedule : list action) (st : State) :
  stamp_inv r st -> stamp_inv r (run cfg schedule st).
Proof.
  revert st. induction schedule as [|a schedule IH]; intros st Hinv; [exact Hinv|].
  simpl. apply IH, stamp_inv_step, Hinv.
Qed.

(** X6: in every run, every sample handed to the driver, and every sample
    still in the buffer, carries the run id, the testplan and the host name
    of the reporter that was constructed, whatever greenlet reported it and
    whenever. *)
Theorem written_samples_are_stamped (testplan profile_name description : string)
    (w : World) (r : Reporter) (schedule : list action) :
  __init__ cfg testplan profile_name description initial_world = (w, inr r) ->
  let st := run cfg schedule (started r w) in
  (forall batch s,
      batch ∈ written (calls (world st)) -> s ∈ batch ->
      s_run_id s = _run_id r /\ s_testplan s = _testplan r /\ s_loadgen s = _hostname r) /\
  (forall s,
      s ∈ buffer st ->
      s_run_id s = _run_id r /\ s_testplan s = _testplan r /\ s_loadgen s = _hostname r).
Proof.
  intros Hinit st.
  assert (Hstamp : stamp_inv r st).
  { apply stamp_inv_run_schedule. apply init_world in Hinit as (_ & Hh & _).
    unfold stamp_inv. simpl. rewrite Hh. repeat split. constructor. }
  pose proof (buffer_inv_run_schedule cfg schedule _ (buffer_inv_started cfg _ _ _ _ _ Hinit))
    as Hbuf.
  fold st in Hbuf. destruct (drained_are_written st Hbuf) as (in_flight & Hd & _).
  destruct Hbuf as (_ & Hcons & _). destruct Hstamp as (_ & _ & _ & Hall).
  rewrite <- Hcons, Hd in Hall. apply Forall_app in Hall as [Hbatches Hbuffer].
  split.
  - intros batch s Hbatch Hs. rewrite Forall_forall in Hbatches. apply Hbatches.
    apply (elem_of_concat s batch); [exact Hs|].
    apply elem_of_app. left. exact Hbatch.
  - intros s Hs. rewrite Forall_forall in Hbuffer. apply Hbuffer, Hs.
Qed.

End Steps.

(** ** The conduct of the reporter under every schedule *)

Ltac exits_simpl :=
  rewrite ?exits_app;
  repeat match goal with
         | |- context [exits [?e]] =>
             first [change (exits [e]) with 0 | change (exits [e]) with 1]
         end;
  rewrite ?Nat.add_0_r.

Section Conduct.

Variable cfg : Config.

Lemma write_open (l : loc) (w : World) :
  cur w = Open ->
  exists o errs,
    write_samples_to_db cfg l w =
      (set_log (log w ++ errs) (set_calls (calls w ++ [(INSERT_request (deref l w), o)]) w),
       inr tt) /\
    refused o = false.
Proof.
  intros Hcur. unfold write_samples_to_db, executemany, server_runs. unfold_M.
  destruct w as [n c k cs lg h b hk hs]. simpl in *. subst k.
  destruct (pg_fault cfg (length cs)) as [r|]; simpl.
  - exists (Failed r), [LogError ("Failed to write samples to Postgresql timescale database: "
                             +:+ r)].
    split; reflexivity.
  - exists Done, []. rewrite app_nil_r. split; reflexivity.
Qed.

(** [exit] sends no batch. *)
Lemma exit_calls (r : Reporter) (w : World) :
  exists new,
    calls (exit cfg r w).1 = calls w ++ new /\ Forall (fun c => is_batch c.1 = false) new.
Proof.
  unfold exit, log_stop_test_run, execute, server_runs. unfold_M.
  destruct w as [n c k cs l h b hk hs]. simpl.
  destruct (is_slave cfg); simpl.
  - exists []. destruct b as [[]|]; simpl; rewrite app_nil_r; split; constructor.
  - destruct k; destruct b as [[]|]; simpl;
      repeat (match goal with
              | |- context [pg_fault cfg ?n] => destruct (pg_fault cfg n); simpl
              | |- context [report_line cfg r ?t] => destruct (report_line cfg r t); simpl
              end);
      rewrite <- ?app_assoc; eexists; (split; [reflexivity|]); repeat constructor.
Qed.

Lemma conduct_inv_exit (st : State) (p : phase) :
  conduct_inv st ->
  conduct_inv {| self := self st; world := (exit cfg (self st) (world st)).1; main := p |}.
Proof.
  intros (H1 & H2 & H3 & Hbg & Hpre).
  destruct (exit_frame cfg (self st) (world st)) as (Hh & _ & Hhk & Hb & _).
  unfold conduct_inv. simpl. rewrite Hh, Hhk, Hb, exits_app.
  repeat (split; [assumption|]).
  change (exits [E_exit]) with 1. lia.
Qed.

Lemma conduct_inv_step (a : action) (st : State) :
  life_inv cfg st -> conduct_inv st -> conduct_inv (step cfg a st).
Proof.
  intros Hlife Hinv.
  destruct (step_cases cfg a st)
    as [->|(Hlive & [Happ|[->|[-> | [(Hdead & ->) | -> ]]]])];
    [exact Hinv| | | | |].
  - destruct Happ as (current & rt & name & t & rl & success & exc & ->).
    rewrite log_request_effect. unfold conduct_inv in *. simpl.
    rewrite exits_app. change (exits [E_append _]) with 0. rewrite Nat.add_0_r. exact Hinv.
  - pose proof Hinv as (H1 & H2 & H3 & Hbg & Hpre).
    unfold _run. destruct (background (world st)) as [[| l |]|] eqn:Hb;
      try exact Hinv.
    + destruct (deref (_samples (self st)) (world st)) as [|x buf];
        [destruct (_finished (self st)) eqn:Hf|];
        unfold conduct_inv; simpl; exits_simpl;
        do 4 (split; [first [assumption | discriminate]|]); exact Hpre.
    + destruct Hlife as (_ & _ & _ & _ & Hzero & _). rewrite Hb in Hzero.
      assert (Hx0 : exits (history (world st)) = 0) by (apply Hzero; [exact Hlive | discriminate]).
      destruct (Hpre Hx0) as [Hopen Hok].
      destruct (write_open l (world st) Hopen) as (o & errs & -> & Ho).
      unfold conduct_inv. simpl.
      do 4 (split; [first [assumption | discriminate]|]).
      intros _. split; [exact Hopen|].
      apply Forall_app. split; [exact Hok|]. constructor; [exact Ho | constructor].
  - destruct Hinv as (H1 & H2 & H3 & Hbg & Hpre).
    unfold conduct_inv, quitting_enter. simpl. exits_simpl.
    split; [apply list_elem_of_filter; split; [discriminate | assumption]|].
    split; [apply list_elem_of_filter; split; [discriminate | assumption]|].
    split; [apply list_elem_of_filter; split; [discriminate | assumption]|].
    split; [exact Hbg | exact Hpre].
  - apply conduct_inv_exit, Hinv.
  - unfold process_exit. destruct (bool_decide _); [apply conduct_inv_exit, Hinv | exact Hinv].
Qed.

Lemma conduct_inv_run_schedule (schedule : list action) (st : State) :
  buffer_inv st -> life_inv cfg st -> conduct_inv st -> conduct_inv (run cfg schedule st).
Proof.
  revert st. induction schedule as [|a schedule IH]; intros st Hbuf Hlife Hinv; [exact Hinv|].
  simpl. apply IH;
    [apply buffer_inv_step, Hbuf | apply life_inv_step; assumption
    | apply conduct_inv_step; assumption].
Qed.

Lemma conduct_inv_started (testplan profile_name description : string)
    (w : World) (r : Reporter) :
  __init__ cfg testplan profile_name description initial_world = (w, inr r) ->
  conduct_inv (started r w).
Proof.
  intros Hinit.
  assert (Hpost : cur w = Open /\ Forall (fun c => refused c.2 = false) (calls w)).
  { revert Hinit. unfold __init__. intros H.
    apply bind_inr in H as ([] & w1 & Hconnect & H).
    apply bind_inr in H as ([] & w2 & Hcur & H).
    apply bind_inr in H as ([] & w3 & Hassert & H).
    apply bind_inr in H as (samples & w4 & Hnew & H).
    apply bind_inr in H as ([] & w5 & Hspawn & H).
    apply bind_inr in H as (run_id & w6 & Hrun & H).
    apply bind_inr in H as ([] & w7 & Hstart & H).
    apply bind_inr in H as ([] & w8 & Hhooks & H).
    injection H as <- _. injection Hhooks as <-. simpl.
    assert (H1 : w1 = set_conn Open initial_world).
    { unfold try_except_log_raise, connect in Hconnect.
      destruct (environ cfg !! "PGHOST"); [destruct (connect_ok cfg)|];
        inversion Hconnect; reflexivity. }
    injection Hcur as <-.
    destruct (decide (testplan = "")); [discriminate|]. injection Hassert as <-.
    injection Hnew as <- _. injection Hspawn as <-. subst w1.
    assert (H6 : cur w6 = Open /\ calls w6 = []).
    { destruct (is_slave cfg || is_master cfg).
      - apply bind_inr in Hrun as (text & w' & Htext & Hparse).
        unfold environ_get in Htext.
        destruct (environ cfg !! "LOCUST_RUN_ID"); [|discriminate].
        injection Htext as <- _. unfold parser_parse in Hparse.
        destruct (parse cfg text); [|discriminate]. injection Hparse as <- _.
        split; reflexivity.
      - injection Hrun as <- _. split; reflexivity. }
    destruct H6 as [Hc6 Hcalls6].
    destruct (negb (is_slave cfg)).
    - apply log_start_testrun_inr in Hstart as (nc & t & ->). simpl.
      rewrite Hcalls6. split; [exact Hc6|]. repeat constructor.
    - injection Hstart as <-. rewrite Hcalls6. split; [exact Hc6 | constructor]. }
  destruct Hpost as [Hcur Hok].
  apply init_world in Hinit as (_ & Hh & Hbg & Hhk & _).
  unfold conduct_inv. simpl. rewrite Hh, Hbg, Hhk. unfold subscriptions.
  split; [repeat constructor|]. split; [repeat constructor|].
  split; [repeat constructor|]. split; [discriminate|].
  intros _. split; assumption.
Qed.

(** The three invariants of a run together. *)
Lemma reachable_invariants (testplan profile_name description : string)
    (w : World) (r : Reporter) (schedule : list action) :
  __init__ cfg testplan profile_name description initial_world = (w, inr r) ->
  let st := run cfg schedule (started r w) in
  buffer_inv st /\ life_inv cfg st /\ conduct_inv st.
Proof.
  intros Hinit.
  pose proof (buffer_inv_started cfg _ _ _ _ _ Hinit) as Hbuf.
  pose proof (life_inv_started cfg _ _ _ _ _ Hinit) as Hlife.
  split; [|split].
  - apply buffer_inv_run_schedule, Hbuf.
  - apply life_inv_run_schedule; assumption.
  - apply conduct_inv_run_schedule; try assumption.
    apply (conduct_inv_started _ _ _ _ _ Hinit).
Qed.

End Conduct.

Section Conduct2.

Variable cfg : Config.

(** X7: in every run, until [exit] is first entered the cursor is open
    and no call was refused by the driver: the background greenlet writes
    on an open cursor.  And [exit] is not entered as long as the process
    runs and the background greenlet lives. *)
Theorem cursor_is_open_when_used (testplan profile_name description : string)
    (w : World) (r : Reporter) (schedule : list action) :
  __init__ cfg testplan profile_name description initial_world = (w, inr r) ->
  let st := run cfg schedule (started r w) in
  (exits (history (world st)) = 0 ->
   cur (world st) = Open /\ forall s o, (s, o) ∈ calls (world st) -> o <> Refused) /\
  (main st <> Exited -> background (world st) <> Some Dead ->
   exits (history (world st)) = 0).
Proof.
  intros Hinit st.
  destruct (reachable_invariants cfg _ _ _ _ _ schedule Hinit)
    as (_ & (_ & _ & _ & _ & Hzero & _) & (_ & _ & _ & _ & Hpre)).
  fold st in Hzero, Hpre. split; [|exact Hzero].
  intros Hx0. destruct (Hpre Hx0) as [Hopen Hok]. split; [exact Hopen|].
  intros s o Hin ->. rewrite Forall_forall in Hok. specialize (Hok _ Hin). discriminate.
Qed.

Lemma buffer_after_append (st : State) (s : Sample) (w' : World) :
  is_Some (heap (world st) !! _samples (self st)) ->
  heap w' = alter (fun xs => xs ++ [s]) (_samples (self st)) (heap (world st)) ->
  buffer (with_world st w') = buffer st ++ [s].
Proof.
  intros [buf Hbuf] Hheap. unfold buffer, deref. simpl.
  rewrite Hheap, lookup_alter_eq, Hbuf. reflexivity.
Qed.

(** X8: at any moment of a run before the process is gone, a success or
    failure notification appends exactly one sample at the end of the
    buffer, built from the arguments, the clock and the reporter, and does
    nothing else: no statement is sent, nothing is logged, cursor,
    connection, greenlet and phase are as before. *)
Theorem listeners_only_append (testplan profile_name description : string)
    (w : World) (r : Reporter) (schedule : list action)
    (current : option Z) (request_type name : string) (response_time : float) :
  __init__ cfg testplan profile_name description initial_world = (w, inr r) ->
  let st := run cfg schedule (started r w) in
  main st <> Exited ->
  let unchanged st' :=
    calls (world st') = calls (world st) /\ log (world st') = log (world st) /\
    cur (world st') = cur (world st) /\ conn (world st') = conn (world st) /\
    background (world st') = background (world st) /\ main st' = main st in
  (forall response_length,
      let st' := step cfg (Fire_success current request_type name response_time
                             response_length) st in
      buffer st' = buffer st ++
        [make_sample (self st) (now cfg (ticks (world st))) current request_type name
           response_time response_length 1 PyNone] /\
      unchanged st') /\
  (forall exception,
      let st' := step cfg (Fire_failure current request_type name response_time
                             exception) st in
      buffer st' = buffer st ++
        [make_sample (self st) (now cfg (ticks (world st))) current request_type name
           response_time (-1) 0 exception] /\
      unchanged st').
Proof.
  intros Hinit st Hlive unchanged. subst unchanged.
  destruct (reachable_invariants cfg _ _ _ _ _ schedule Hinit)
    as ((Hsome & _) & _ & (H1 & H2 & _)).
  fold st in Hsome, H1, H2. split.
  - intros response_length st'. subst st'.
    assert (Hstep : step cfg (Fire_success current request_type name response_time
                                response_length) st
                    = with_world st (request_success cfg (self st) current request_type name
                                       response_time response_length (world st)).1).
    { unfold step, listening. rewrite bool_decide_eq_true_2 by exact H1.
      destruct (main st); try reflexivity. contradiction. }
    rewrite Hstep. unfold request_success. rewrite log_request_effect.
    split; [|repeat split].
    apply buffer_after_append; [exact Hsome | reflexivity].
  - intros exception st'. subst st'.
    assert (Hstep : step cfg (Fire_failure current request_type name response_time
                                exception) st
                    = with_world st (request_failure cfg (self st) current request_type name
                                       response_time exception (world st)).1).
    { unfold step, listening. rewrite bool_decide_eq_true_2 by exact H2.
      destruct (main st); try reflexivity. contradiction. }
    rewrite Hstep. unfold request_failure. rewrite log_request_effect.
    split; [|repeat split].
    apply buffer_after_append; [exact Hsome | reflexivity].
Qed.

(** ** Shutdown *)

Lemma run_cons (a : action) (schedule : list action) (st : State) :
  run cfg (a :: schedule) st = run cfg schedule (step cfg a st).
Proof. reflexivity. Qed.

Lemma resume_alive (st : State) :
  main st <> Exited -> step cfg Resume_background st = _run cfg st.
Proof. unfold step. destruct (main st); try reflexivity. contradiction. Qed.


(** A turn of the background greenlet once [_finished] is set: either it
    has returned on an empty buffer, or it is one turn closer to that. *)
Lemma turn_towards_return (n : nat) (st : State) :
  _finished (self st) = true ->
  (background (world st) = Some Dead /\ buffer st = [] \/
   1 <= turns_left st <= S n) ->
  _finished (self (_run cfg st)) = true /\ main (_run cfg st) = main st /\
  (background (world (_run cfg st)) = Some Dead /\ buffer (_run cfg st) = [] \/
   1 <= turns_left (_run cfg st) <= n).
Proof.
  intros Hfin Hcase. unfold turns_left, buffer, _run in *.
  destruct (background (world st)) as [[| l |]|] eqn:Hbg.
  - destruct (deref (_samples (self st)) (world st)) as [|x buf] eqn:Hbuf.
    + rewrite Hfin. cbn [self world main]. split; [exact Hfin|]. split; [reflexivity|].
      left. split; [reflexivity | exact Hbuf].
    + cbn [self world main background set_background _finished set_samples _samples].
      unfold deref. cbn [heap set_background set_history set_heap].
      rewrite lookup_insert_eq. simpl.
      split; [exact Hfin|]. split; [reflexivity|]. right.
      destruct Hcase as [[Hd _]|Hle]; [discriminate | lia].
  - destruct (write_samples_to_db_effect cfg l (world st)) as (o & errs & -> & _).
    cbn [self world main background set_background fst snd].
    split; [exact Hfin|]. split; [reflexivity|]. right.
    change (deref (_samples (self st)) (set_background _ _))
      with (deref (_samples (self st)) (world st)).
    destruct (deref (_samples (self st)) (world st)) as [|x buf];
      (destruct Hcase as [[Hd _]|Hle]; [discriminate | lia]).
  - rewrite Hbg. split; [exact Hfin|]. split; [reflexivity|].
    destruct Hcase as [Hd|Hle]; [left; exact Hd | lia].
  - destruct Hcase as [[Hd _]|Hle]; [discriminate | lia].
Qed.

(** [quitting], four turns and the return of [join], from a state in which
    [quitting] was not notified and the greenlet is alive. *)
Lemma shutdown_settles (st0 st : State) :
  main st0 = Running ->
  (events_quitting, m_quitting) ∈ hooks (world st0) ->
  background (world st0) <> Some Dead ->
  background (world st0) <> None ->
  st = run cfg shutdown_schedule st0 ->
  main st = Returned /\ background (world st) = Some Dead /\ buffer st = [].
Proof.
  intros Hrunning Hq Halive Hbg ->.
  unfold shutdown_schedule. rewrite !run_cons.
  assert (H1 : step cfg Fire_quitting st0 = quitting_enter st0).
  { unfold step, listening. rewrite Hrunning, bool_decide_eq_true_2 by exact Hq.
    reflexivity. }
  rewrite H1. clear H1. set (s1 := quitting_enter st0).
  assert (P1 : _finished (self s1) = true /\ main s1 = Joining 0 /\
               (background (world s1) = Some Dead /\ buffer s1 = [] \/
                1 <= turns_left s1 <= 4)).
  { split; [reflexivity|]. split; [subst s1; simpl; rewrite Hrunning; reflexivity|]. right.
    unfold turns_left, buffer. subst s1. simpl.
    destruct (background (world st0)) as [[| l |]|]; try contradiction;
      destruct (deref (_samples (self st0)) _); lia. }
  destruct P1 as (Hf1 & Hm1 & Hc1).
  rewrite (resume_alive s1) by (rewrite Hm1; discriminate).
  destruct (turn_towards_return 3 s1 Hf1 Hc1) as (Hf2 & Hm2 & Hc2).
  set (s2 := _run cfg s1) in *. rewrite Hm1 in Hm2.
  rewrite (resume_alive s2) by (rewrite Hm2; discriminate).
  destruct (turn_towards_return 2 s2 Hf2 Hc2) as (Hf3 & Hm3 & Hc3).
  set (s3 := _run cfg s2) in *. rewrite Hm2 in Hm3.
  rewrite (resume_alive s3) by (rewrite Hm3; discriminate).
  destruct (turn_towards_return 1 s3 Hf3 Hc3) as (Hf4 & Hm4 & Hc4).
  set (s4 := _run cfg s3) in *. rewrite Hm3 in Hm4.
  rewrite (resume_alive s4) by (rewrite Hm4; discriminate).
  destruct (turn_towards_return 0 s4 Hf4 Hc4) as (Hf5 & Hm5 & Hc5).
  set (s5 := _run cfg s4) in *. rewrite Hm4 in Hm5.
  destruct Hc5 as [[Hdead Hempty]|Hle]; [|lia].
  assert (H6 : step cfg Join_returns s5 = quitting_leave cfg s5).
  { unfold step. rewrite Hm5, bool_decide_eq_true_2 by exact Hdead. reflexivity. }
  rewrite H6. clear H6. unfold quitting_leave. rewrite Hm5. simpl.
  destruct (exit_frame cfg (self s5) (world s5)) as (_ & Hheap & _ & Hb & _).
  split; [reflexivity|]. split.
  - rewrite Hb. exact Hdead.
  - unfold buffer, deref in *. simpl. rewrite Hheap. exact Hempty.
Qed.

(** X9: from any moment of a run at which [quitting] has not been
    notified, the notification, four turns of the background greenlet and
    the return of [join] end the run with nothing left behind: [quitting]
    has returned, the greenlet is dead, the buffer is empty, and the
    batches handed to the driver are, in order, all the samples ever
    appended. *)
Theorem clean_shutdown_hands_over_everything
    (testplan profile_name description : string)
    (w : World) (r : Reporter) (schedule : list action) :
  __init__ cfg testplan profile_name description initial_world = (w, inr r) ->
  main (run cfg schedule (started r w)) = Running ->
  let st := run cfg (schedule ++ shutdown_schedule) (started r w) in
  main st = Returned /\ background (world st) = Some Dead /\ buffer st = [] /\
  concat (written (calls (world st))) = appended (history (world st)).
Proof.
  intros Hinit Hrunning st.
  destruct (reachable_invariants cfg _ _ _ _ _ (schedule ++ shutdown_schedule) Hinit)
    as (Hbuf & _ & _).
  fold st in Hbuf.
  destruct (reachable_invariants cfg _ _ _ _ _ schedule Hinit)
    as (_ & (_ & _ & Hlife & _) & (_ & _ & Hq & Hbg & _)).
  rewrite Hrunning in Hlife. destruct Hlife as (_ & _ & _ & _ & Halive).
  destruct (shutdown_settles (run cfg schedule (started r w)) st
              Hrunning Hq Halive Hbg (run_app cfg _ _ _))
    as (Hmain & Hdead & Hempty).
  split; [exact Hmain|]. split; [exact Hdead|]. split; [exact Hempty|].
  destruct Hbuf as (_ & Hcons & Hd & _). rewrite Hdead in Hd.
  rewrite Hempty, app_nil_r, Hd in Hcons. exact Hcons.
Qed.

Lemma step_after_return (a : action) (st : State) :
  background (world st) = Some Dead ->
  is_Some (heap (world st) !! _samples (self st)) ->
  let st' := step cfg a st in
  background (world st') = Some Dead /\
  is_Some (heap (world st') !! _samples (self st')) /\
  written (calls (world st')) = written (calls (world st)) /\
  exists later,
    appended (history (world st')) = appended (history (world st)) ++ later /\
    buffer st' = buffer st ++ later.
Proof.
  intros Hdead Hsome. simpl.
  assert (Hsame : background (world st) = Some Dead /\
                  is_Some (heap (world st) !! _samples (self st)) /\
                  written (calls (world st)) = written (calls (world st)) /\
                  exists later,
                    appended (history (world st)) = appended (history (world st)) ++ later /\
                    buffer st = buffer st ++ later).
  { repeat split; try assumption. exists []. rewrite !app_nil_r. split; reflexivity. }
  destruct (step_cases cfg a st)
    as [->|(Hlive & [Happ|[->|[-> | [(_ & ->) | -> ]]]])];
    [exact Hsame| | | | |].
  - destruct Happ as (current & rt & name & t & rl & success & exc & ->).
    rewrite log_request_effect. simpl. split; [exact Hdead|]. split.
    { destruct Hsome as [buf Hbuf]. rewrite lookup_alter_eq, Hbuf. eauto. }
    split; [reflexivity|]. eexists. rewrite appended_app. simpl.
    split; [reflexivity|].
    apply (buffer_after_append st); [exact Hsome | reflexivity].
  - unfold _run. rewrite Hdead. exact Hsame.
  - unfold quitting_enter, buffer, deref. simpl. rewrite appended_app. simpl.
    repeat split; try assumption. exists []. rewrite !app_nil_r. split; reflexivity.
  - destruct (exit_frame cfg (self st) (world st)) as (Hh & Hheap & _ & Hb & Hw & _).
    unfold quitting_leave, buffer, deref. simpl.
    rewrite Hh, Hheap, Hb, Hw, appended_app. simpl.
    repeat split; try assumption. exists []. rewrite !app_nil_r. split; reflexivity.
  - unfold process_exit. simpl. destruct (bool_decide _).
    + destruct (exit_frame cfg (self st) (world st)) as (Hh & Hheap & _ & Hb & Hw & _).
      unfold buffer, deref. simpl. rewrite Hh, Hheap, Hb, Hw, appended_app. simpl.
      repeat split; try assumption. exists []. rewrite !app_nil_r. split; reflexivity.
    + unfold buffer, deref. simpl.
      repeat split; try assumption. exists []. rewrite !app_nil_r. split; reflexivity.
Qed.

(** X10: once the background greenlet has returned, no batch is handed to
    the driver any more, whatever happens next.  The listeners stay
    subscribed, so the samples reported from then on pile up in the buffer
    and are never written. *)
Theorem nothing_is_written_after_return (st : State) (schedule : list action) :
  background (world st) = Some Dead ->
  is_Some (heap (world st) !! _samples (self st)) ->
  let st' := run cfg schedule st in
  background (world st') = Some Dead /\
  written (calls (world st')) = written (calls (world st)) /\
  exists later,
    appended (history (world st')) = appended (history (world st)) ++ later /\
    buffer st' = buffer st ++ later.
Proof.
  revert st. induction schedule as [|a schedule IH]; intros st Hdead Hsome.
  - simpl. repeat split; try assumption. exists []. rewrite !app_nil_r. split; reflexivity.
  - destruct (step_after_return a st Hdead Hsome) as (Hd1 & Hs1 & Hw1 & later1 & Ha1 & Hb1).
    destruct (IH _ Hd1 Hs1) as (Hd2 & Hw2 & later2 & Ha2 & Hb2).
    rewrite run_cons. simpl. split; [exact Hd2|]. split; [congruence|].
    exists (later1 ++ later2). rewrite Ha2, Ha1, Hb2, Hb1, !app_assoc. split; reflexivity.
Qed.




End Conduct2.

(** ** What reaches the store *)

Lemma stored_sublist_written (c : list (stmt * outcome)) :
  stored c `sublist_of` written c.
Proof.
  induction c as [|[s o] c IH]; [constructor|].
  unfold stored, written in *. simpl.
  destruct s; simpl; try exact IH.
  destruct o; [apply sublist_skip | apply sublist_cons | apply sublist_cons]; exact IH.
Qed.

Lemma concat_sublist {A} (l1 l2 : list (list A)) :
  l1 `sublist_of` l2 -> concat l1 `sublist_of` concat l2.
Proof.
  induction 1 as [|x l1 l2 _ IH|x l1 l2 _ IH]; simpl.
  - constructor.
  - apply sublist_app; [reflexivity | exact IH].
  - apply sublist_inserts_l. exact IH.
Qed.

Lemma stored_all_done (c : list (stmt * outcome)) :
  Forall (fun so => is_batch so.1 = true -> so.2 = Done) c -> stored c = written c.
Proof.
  induction 1 as [|[s o] c Ho _ IH]; [reflexivity|].
  simpl in Ho.
  destruct s; unfold stored, written in *; simpl; try exact IH.
  rewrite (Ho eq_refl). f_equal. exact IH.
Qed.

Section Store.

Variable cfg : Config.

(** X12: in every run the samples of the batches the server ran are a
    sublist of the samples appended: each of them was reported, none is
    stored twice, and they are stored in the order they were reported. *)
Theorem stored_samples_were_appended_once (testplan profile_name description : string)
    (w : World) (r : Reporter) (schedule : list action) :
  __init__ cfg testplan profile_name description initial_world = (w, inr r) ->
  let st := run cfg schedule (started r w) in
  concat (stored (calls (world st))) `sublist_of` appended (history (world st)).
Proof.
  intros Hinit st.
  destruct (reachable_invariants cfg _ _ _ _ _ schedule Hinit) as (Hbuf & _ & _).
  fold st in Hbuf. destruct (drained_are_written st Hbuf) as (in_flight & Hd & _).
  destruct Hbuf as (_ & Hcons & _). rewrite <- Hcons, Hd, concat_app.
  etransitivity; [apply concat_sublist, stored_sublist_written|].
  rewrite <- app_assoc. apply sublist_inserts_r. reflexivity.
Qed.

Lemma write_explained (l : loc) (w : World) :
  cur w = Open ->
  exists o errs,
    write_samples_to_db cfg l w =
      (set_log (log w ++ errs) (set_calls (calls w ++ [(INSERT_request (deref l w), o)]) w),
       inr tt) /\
    explained cfg (INSERT_request (deref l w), o).
Proof.
  intros Hcur. unfold write_samples_to_db, executemany, server_runs. unfold_M.
  destruct w as [n c k cs lg h b hk hs]. simpl in *. subst k.
  destruct (pg_fault cfg (length cs)) as [err|] eqn:Hfault; simpl.
  - exists (Failed err), [LogError ("Failed to write samples to Postgresql timescale database: "
                               +:+ err)].
    split; [reflexivity|]. exists (length cs). exact Hfault.
  - exists Done, []. rewrite app_nil_r. split; [reflexivity | exact I].
Qed.

Lemma accounted_exit (st : State) (p : phase) :
  accounted cfg st ->
  accounted cfg {| self := self st; world := (exit cfg (self st) (world st)).1; main := p |}.
Proof.
  intros [Hbatch _].
  destruct (exit_frame cfg (self st) (world st)) as (Hh & _).
  destruct (exit_calls cfg (self st) (world st)) as (new & Hcalls & Hnew).
  unfold accounted. simpl. rewrite Hh, Hcalls, exits_app. split.
  - apply Forall_app. split; [exact Hbatch|].
    eapply Forall_impl; [exact Hnew|]. intros c Hc Hyes. congruence.
  - change (exits [E_exit]) with 1. lia.
Qed.

Lemma accounted_step (a : action) (st : State) :
  life_inv cfg st -> conduct_inv st -> accounted cfg st -> accounted cfg (step cfg a st).
Proof.
  intros Hlife Hconduct Hok.
  destruct Hconduct as (_ & _ & _ & _ & Hcur).
  destruct (step_cases cfg a st)
    as [->|(Hlive & [Happ|[->|[-> | [(Hdead & ->) | -> ]]]])];
    [exact Hok| | | | |].
  - destruct Happ as (current & rt & name & t & rl & success & exc & ->).
    rewrite log_request_effect. unfold accounted in *. simpl.
    rewrite exits_app. change (exits [E_append _]) with 0. rewrite Nat.add_0_r. exact Hok.
  - destruct Hok as [Hbatch Hpre].
    unfold _run. destruct (background (world st)) as [[| l |]|] eqn:Hb;
      try (split; assumption).
    + destruct (deref (_samples (self st)) (world st)); [destruct (_finished (self st))|];
        unfold accounted; simpl; exits_simpl; (split; [exact Hbatch | exact Hpre]).
    + destruct Hlife as (_ & _ & _ & _ & Hzero & _). rewrite Hb in Hzero.
      assert (Hx0 : exits (history (world st)) = 0) by (apply Hzero; [exact Hlive | discriminate]).
      destruct (Hcur Hx0) as [Hopen _].
      destruct (write_explained l (world st) Hopen) as (o & errs & -> & Ho).
      unfold accounted. simpl. split.
      * apply Forall_app. split; [exact Hbatch|]. constructor; [intros _; exact Ho | constructor].
      * intros _. apply Forall_app. split; [apply Hpre, Hx0|].
        constructor; [exact Ho | constructor].
  - unfold accounted, quitting_enter in *. simpl.
    rewrite exits_app. change (exits [E_quitting]) with 0. rewrite Nat.add_0_r. exact Hok.
  - apply accounted_exit, Hok.
  - unfold process_exit. destruct (bool_decide _); [apply accounted_exit, Hok | exact Hok].
Qed.

Lemma accounted_run_schedule (schedule : list action) (st : State) :
  buffer_inv st -> life_inv cfg st -> conduct_inv st ->
  accounted cfg st -> accounted cfg (run cfg schedule st).
Proof.
  revert st. induction schedule as [|a schedule IH]; intros st Hbuf Hlife Hconduct Hok;
    [exact Hok|].
  simpl. apply IH.
  - apply buffer_inv_step, Hbuf.
  - apply life_inv_step; assumption.
  - apply conduct_inv_step; assumption.
  - apply accounted_step; assumption.
Qed.

Lemma explained_started (testplan profile_name description : string)
    (w : World) (r : Reporter) :
  __init__ cfg testplan profile_name description initial_world = (w, inr r) ->
  Forall (explained cfg) (calls w).
Proof.
  unfold __init__. intros H.
  apply bind_inr in H as ([] & w1 & Hconnect & H).
  apply bind_inr in H as ([] & w2 & Hcur & H).
  apply bind_inr in H as ([] & w3 & Hassert & H).
  apply bind_inr in H as (samples & w4 & Hnew & H).
  apply bind_inr in H as ([] & w5 & Hspawn & H).
  apply bind_inr in H as (run_id & w6 & Hrun & H).
  apply bind_inr in H as ([] & w7 & Hstart & H).
  apply bind_inr in H as ([] & w8 & Hhooks & H).
  injection H as <- _. injection Hhooks as <-. simpl.
  assert (H1 : calls w1 = []).
  { unfold try_except_log_raise, connect in Hconnect.
    destruct (environ cfg !! "PGHOST"); [destruct (connect_ok cfg)|];
      inversion Hconnect; reflexivity. }
  injection Hcur as <-.
  destruct (decide (testplan = "")); [discriminate|]. injection Hassert as <-.
  injection Hnew as <- _. injection Hspawn as <-.
  assert (H6 : calls w6 = []).
  { destruct (is_slave cfg || is_master cfg).
    - apply bind_inr in Hrun as (text & w' & Htext & Hparse).
      unfold environ_get in Htext.
      destruct (environ cfg !! "LOCUST_RUN_ID"); [|discriminate].
      injection Htext as <- _. unfold parser_parse in Hparse.
      destruct (parse cfg text); [|discriminate]. injection Hparse as <- _. exact H1.
    - injection Hrun as <- _. exact H1. }
  destruct (negb (is_slave cfg)).
  - apply log_start_testrun_inr in Hstart as (nc & t & ->). simpl.
    rewrite H6. repeat constructor.
  - injection Hstart as <-. rewrite H6. constructor.
Qed.

Lemma accounted_started (testplan profile_name description : string)
    (w : World) (r : Reporter) :
  __init__ cfg testplan profile_name description initial_world = (w, inr r) ->
  accounted cfg (started r w).
Proof.
  intros Hinit. pose proof (explained_started _ _ _ _ _ Hinit) as Hok.
  split; [|intros _; exact Hok].
  eapply Forall_impl; [exact Hok|]. intros c Hc _. exact Hc.
Qed.

(** X13: on a server that fails no call, every statement sent before
    [exit] is first entered is run by the server, the batches among them
    included; and a clean shutdown ([quitting], four turns of the
    background greenlet, the return of [join]) leaves the store with
    exactly the samples that were appended, in order, and the buffer
    empty. *)
Theorem healthy_server_stores_everything (testplan profile_name description : string)
    (w : World) (r : Reporter) (schedule : list action) :
  (forall n, pg_fault cfg n = None) ->
  __init__ cfg testplan profile_name description initial_world = (w, inr r) ->
  let st0 := run cfg schedule (started r w) in
  (exits (history (world st0)) = 0 ->
   forall s o, (s, o) ∈ calls (world st0) -> o = Done) /\
  (main st0 = Running ->
   let st := run cfg (schedule ++ shutdown_schedule) (started r w) in
   concat (stored (calls (world st))) = appended (history (world st)) /\ buffer st = []).
Proof.
  intros Hhealthy Hinit st0.
  assert (Hdone : forall c, explained cfg c -> c.2 = Done).
  { intros [s o]. unfold explained. simpl.
    destruct o as [|err|]; [reflexivity | | contradiction].
    intros [n Hn]. rewrite Hhealthy in Hn. discriminate. }
  assert (Hacc : forall schedule', accounted cfg (run cfg schedule' (started r w))).
  { intros schedule'. apply accounted_run_schedule.
    - apply (buffer_inv_started cfg _ _ _ _ _ Hinit).
    - apply (life_inv_started cfg _ _ _ _ _ Hinit).
    - apply (conduct_inv_started cfg _ _ _ _ _ Hinit).
    - apply (accounted_started _ _ _ _ _ Hinit). }
  assert (Hstored : forall schedule',
             stored (calls (world (run cfg schedule' (started r w))))
             = written (calls (world (run cfg schedule' (started r w))))).
  { intros schedule'. apply stored_all_done. destruct (Hacc schedule') as [Hbatch _].
    eapply Forall_impl; [exact Hbatch|]. intros c Hc Hyes. apply Hdone, Hc, Hyes. }
  destruct (Hacc schedule) as [_ Hpre]. fold st0 in Hpre.
  split.
  - intros Hx0 s o Hin. specialize (Hpre Hx0). rewrite Forall_forall in Hpre.
    apply (Hdone _ (Hpre _ Hin)).
  - intros Hrunning st.
    pose proof (Hstored (schedule ++ shutdown_schedule)) as Hs.
    fold st in Hs. rewrite Hs. clear Hs.
    destruct (reachable_invariants cfg _ _ _ _ _ (schedule ++ shutdown_schedule) Hinit)
      as (Hbuf & _ & _).
    fold st in Hbuf.
    destruct (reachable_invariants cfg _ _ _ _ _ schedule Hinit)
      as (_ & (_ & _ & Hlife & _) & (_ & _ & Hq & Hbg & _)).
    fold st0 in Hlife, Hq, Hbg.
    rewrite Hrunning in Hlife. destruct Hlife as (_ & _ & _ & _ & Halive).
    assert (Hsettled : background (world st) = Some Dead /\ buffer st = []).
    { apply (shutdown_settles cfg st0 st Hrunning Hq Halive Hbg (run_app cfg _ _ _)). }
    destruct Hsettled as [Hdead Hempty]. split; [|exact Hempty].
    destruct Hbuf as (_ & Hcons & Hd & _). rewrite Hdead in Hd.
    rewrite Hempty, app_nil_r, Hd in Hcons. exact Hcons.
Qed.

End Store.

(** ** The further properties on the example processes *)

Lemma connection_failure_is_logged_and_raised_witness :
  __init__ no_pghost "plan" "" "" initial_world
  = (set_log [LogError connect_guidance] initial_world, inl (KeyError "PGHOST")) /\
  __init__ unreachable "plan" "" "" initial_world
  = (set_log [LogError connect_guidance] initial_world, inl OperationalError).
Proof.
  split.
  - apply (proj1 (connection_failure_is_logged_and_raised no_pghost "plan" "" ""
                    initial_world)).
    reflexivity.
  - apply (proj2 (connection_failure_is_logged_and_raised unreachable "plan" "" ""
                    initial_world) "db"); reflexivity.
Defined.

Lemma run_id_failure_leaves_greenlet_spawned_witness :
  ((__init__ no_run_id "plan" "" "" initial_world).2 = inl (KeyError "LOCUST_RUN_ID") /\
   background (__init__ no_run_id "plan" "" "" initial_world).1 = Some Sleeping /\
   hooks (__init__ no_run_id "plan" "" "" initial_world).1 = []) /\
  ((__init__ bad_run_id "plan" "" "" initial_world).2 = inl (ParserError "yesterday") /\
   background (__init__ bad_run_id "plan" "" "" initial_world).1 = Some Sleeping /\
   hooks (__init__ bad_run_id "plan" "" "" initial_world).1 = []).
Proof.
  split.
  - destruct (run_id_failure_leaves_greenlet_spawned no_run_id "plan" "" "" "db"
                initial_world) as (Hkey & _ & Hworld);
      [reflexivity | reflexivity | discriminate | reflexivity |].
    destruct (Hworld (or_introl eq_refl)) as (_ & _ & Hbg & Hhooks & _).
    split; [apply Hkey; reflexivity|]. split; [exact Hbg | exact Hhooks].
  - destruct (run_id_failure_leaves_greenlet_spawned bad_run_id "plan" "" "" "db"
                initial_world) as (_ & Hparse & Hworld);
      [reflexivity | reflexivity | discriminate | reflexivity |].
    destruct (Hworld (or_intror (ex_intro _ "yesterday" (conj eq_refl eq_refl))))
      as (_ & _ & Hbg & Hhooks & _).
    split; [apply (Hparse "yesterday"); reflexivity|]. split; [exact Hbg | exact Hhooks].
Defined.

Lemma run_start_failure_aborts_construction_witness :
  ((__init__ (failing_at 0) "plan" "" "" initial_world).2
   = inl (Psycopg2Error "OperationalError('gone')") /\
   hooks (__init__ (failing_at 0) "plan" "" "" initial_world).1 = []) /\
  ((__init__ (failing_at 1) "plan" "" "" initial_world).2
   = inl (Psycopg2Error "OperationalError('gone')") /\
   length (calls (__init__ (failing_at 1) "plan" "" "" initial_world).1) = 2).
Proof.
  split.
  - destruct (run_start_failure_aborts_construction (failing_at 0) "plan" "" "" "db"
                (PyStr "10") "OperationalError('gone')" initial_world) as (Hfirst & _);
      [reflexivity | reflexivity | discriminate | reflexivity | reflexivity | reflexivity |].
    destruct (Hfirst eq_refl) as (Hres & _ & Hhooks & _). split; assumption.
  - destruct (run_start_failure_aborts_construction (failing_at 1) "plan" "" "" "db"
                (PyStr "10") "OperationalError('gone')" initial_world) as (_ & Hsecond);
      [reflexivity | reflexivity | discriminate | reflexivity | reflexivity | reflexivity |].
    destruct (Hsecond eq_refl eq_refl) as (Hres & Hcalls & _).
    split; [exact Hres | rewrite Hcalls; reflexivity].
Defined.

Lemma constructed_reporter_witness :
  calls (example_world follower) = [] /\
  exists nc,
    find_num_clients standalone = inr nc /\
    calls (example_world standalone)
    = [(INSERT_testrun (_run_id (example_reporter standalone)) "plan" "" nc "0" "", Done);
       (INSERT_events (AsText (isoformat (now standalone 1))) "plan started", Done)].
Proof.
  split.
  - apply (constructed_reporter follower "plan" "" "" _ (example_reporter follower));
      [apply example_init; vm_compute; reflexivity | reflexivity].
  - apply (constructed_reporter standalone "plan" "" "" _ (example_reporter standalone));
      [apply example_init; vm_compute; reflexivity | reflexivity].
Defined.

Lemma run_end_failure_is_swallowed_witness :
  let r := example_reporter standalone in
  let w := example_world standalone in
  let busy := world (run standalone (take 2 busy_schedule) (example_state standalone)) in
  (exit (failing_at 2) r w).2 = inr tt /\
  length (calls (exit (failing_at 2) r w).1) = 3 /\
  cur (exit (failing_at 2) r w).1 = Closed /\
  (exit (failing_at 3) r w).2 = inr tt /\
  length (calls (exit (failing_at 3) r w).1) = 4 /\
  conn (exit (failing_at 3) r w).1 = Closed /\
  (exit standalone r busy).2 = inl Hangs /\
  conn (exit standalone r busy).1 = Open.
Proof.
  cbv zeta.
  destruct (run_end_failure_is_swallowed (failing_at 2) (example_reporter standalone)
              (example_world standalone) "OperationalError('gone')"
              ("Report: http://grafana/d/1?orgId=1&var-testplan=plan"
               +:+ "&from=1700000000000&to=1700000003000" +:+ newline))
    as (Hupdate & _); [reflexivity | reflexivity | vm_compute; reflexivity |].
  destruct (run_end_failure_is_swallowed (failing_at 3) (example_reporter standalone)
              (example_world standalone) "OperationalError('gone')"
              ("Report: http://grafana/d/1?orgId=1&var-testplan=plan"
               +:+ "&from=1700000000000&to=1700000003000" +:+ newline))
    as (_ & Hevent & _); [reflexivity | reflexivity | vm_compute; reflexivity |].
  destruct (run_end_failure_is_swallowed standalone (example_reporter standalone)
              (world (run standalone (take 2 busy_schedule) (example_state standalone)))
              "" ("Report: http://grafana/d/1?orgId=1&var-testplan=plan"
                  +:+ "&from=1700000000000&to=1700000004000" +:+ newline))
    as (_ & _ & Hbusy); [reflexivity | vm_compute; reflexivity | vm_compute; reflexivity |].
  destruct (Hupdate eq_refl eq_refl) as (Hres & Hcalls & _ & Hcur & _).
  destruct (Hevent eq_refl eq_refl eq_refl) as (Hres' & Hcalls' & _ & _ & Hconn').
  destruct Hbusy as (Hres'' & _ & _ & _ & Hconn''); [vm_compute; reflexivity|].
  split; [rewrite Hres; reflexivity|]. split; [rewrite Hcalls; reflexivity|].
  split; [exact Hcur|]. split; [rewrite Hres'; reflexivity|].
  split; [rewrite Hcalls'; reflexivity|]. split; [exact Hconn'|].
  split; [rewrite Hres''; reflexivity|]. rewrite Hconn''. vm_compute. reflexivity.
Defined.

Lemma standalone_init :
  __init__ standalone "plan" "" "" initial_world
  = (example_world standalone, inr (example_reporter standalone)).
Proof. apply example_init. vm_compute. reflexivity. Qed.

Lemma flaky_init :
  __init__ flaky "plan" "" "" initial_world
  = (example_world flaky, inr (example_reporter flaky)).
Proof. apply example_init. vm_compute. reflexivity. Qed.

Lemma written_samples_are_stamped_witness :
  let st := run standalone busy_schedule (example_state standalone) in
  exists s b rest,
    written (calls (world st)) = (s :: b) :: rest /\
    s_run_id s = _run_id (example_reporter standalone) /\
    s_testplan s = "plan" /\ s_loadgen s = "loadgen1".
Proof.
  cbv zeta. unfold example_state.
  assert (Hw : exists s b rest,
             written (calls (world (run standalone busy_schedule
                                      (started (example_reporter standalone)
                                         (example_world standalone))))) = (s :: b) :: rest)
    by (vm_compute; eexists _, _, _; reflexivity).
  destruct Hw as (s & b & rest & Hw). exists s, b, rest. split; [exact Hw|].
  apply (proj1 (written_samples_are_stamped standalone "plan" "" "" _ _ busy_schedule
                  standalone_init) (s :: b) s).
  - rewrite Hw. constructor.
  - constructor.
Defined.

Lemma cursor_is_open_when_used_witness :
  let st := run standalone busy_schedule (example_state standalone) in
  cur (world st) = Open /\
  (forall c, calls (world st) !! 2 = Some c -> c.2 <> Refused) /\
  exits (history (world st)) = 0.
Proof.
  cbv zeta. unfold example_state.
  destruct (cursor_is_open_when_used standalone "plan" "" "" _ _ busy_schedule
              standalone_init) as (Hopen & Hzero).
  assert (Hx0 : exits (history (world (run standalone busy_schedule
                                         (started (example_reporter standalone)
                                            (example_world standalone))))) = 0)
    by (apply Hzero; vm_compute; discriminate).
  destruct (Hopen Hx0) as [Hcur Hok].
  split; [exact Hcur|]. split; [|exact Hx0].
  intros [s o] Hc. apply (Hok s o). eapply list_elem_of_lookup_2. exact Hc.
Defined.

Lemma listeners_only_append_witness :
  let st := run standalone busy_schedule (example_state standalone) in
  let st' := step standalone (Fire_success (Some 7%Z) "GET" "/d" 3 20) st in
  length (buffer st') = S (length (buffer st)) /\ calls (world st') = calls (world st).
Proof.
  cbv zeta. unfold example_state.
  destruct (listeners_only_append standalone "plan" "" "" _ _ busy_schedule
              (Some 7%Z) "GET" "/d" 3 standalone_init) as (Hsuccess & _).
  - vm_compute. discriminate.
  - destruct (Hsuccess 20%Z) as (Hbuffer & Hcalls & _).
    split; [|exact Hcalls].
    rewrite Hbuffer, length_app. apply Nat.add_1_r.
Defined.

Lemma clean_shutdown_hands_over_everything_witness :
  let st := run flaky (busy_schedule ++ shutdown_schedule) (example_state flaky) in
  main st = Returned /\ background (world st) = Some Dead /\ buffer st = [] /\
  concat (written (calls (world st))) = appended (history (world st)).
Proof.
  apply (clean_shutdown_hands_over_everything flaky "plan" "" "" _ _ busy_schedule
           flaky_init).
  vm_compute. reflexivity.
Defined.

Lemma nothing_is_written_after_return_witness :
  let st := run standalone (busy_schedule ++ shutdown_schedule) (example_state standalone) in
  let st' := run standalone late_schedule st in
  written (calls (world st')) = written (calls (world st)) /\
  exists later,
    appended (history (world st')) = appended (history (world st)) ++ later /\
    buffer st' = buffer st ++ later.
Proof.
  cbv zeta. unfold example_state.
  destruct (nothing_is_written_after_return standalone
              (run standalone (busy_schedule ++ shutdown_schedule)
                 (started (example_reporter standalone) (example_world standalone)))
              late_schedule) as (_ & Hw & Hlater).
  - vm_compute. reflexivity.
  - eexists. vm_compute. reflexivity.
  - split; assumption.
Defined.


Lemma stored_samples_were_appended_once_witness :
  let st := run flaky quit_schedule (example_state flaky) in
  concat (stored (calls (world st))) `sublist_of` appended (history (world st)) /\
  length (concat (stored (calls (world st)))) = 2 /\
  length (appended (history (world st))) = 3.
Proof.
  cbv zeta. unfold example_state. split.
  - apply (stored_samples_were_appended_once flaky "plan" "" "" _ _ quit_schedule flaky_init).
  - vm_compute. split; reflexivity.
Defined.

Lemma healthy_server_stores_everything_witness :
  let st := run standalone (busy_schedule ++ shutdown_schedule) (example_state standalone) in
  (forall c, calls (world (run standalone busy_schedule (example_state standalone))) !! 2
             = Some c -> c.2 = Done) /\
  concat (stored (calls (world st))) = appended (history (world st)) /\ buffer st = [].
Proof.
  cbv zeta. unfold example_state.
  destruct (healthy_server_stores_everything standalone "plan" "" "" _ _ busy_schedule
              (fun n => eq_refl) standalone_init) as (Hdone & Hall).
  split.
  - intros [s o] Hc. apply (Hdone ltac:(vm_compute; reflexivity) s o).
    eapply list_elem_of_lookup_2. exact Hc.
  - apply Hall. vm_compute. reflexivity.
Defined.
